(** * COSStorage: the request-signing and protocol-mapping layer

    A shallow embedding of [aury/sdk/storage/storage/cos.py] and the
    properties of its signer, host resolver, header filter and object
    operations.

    Conventions of the embedding.
    - A Python [str] is a [string]: the sequence of bytes of its UTF-8
      encoding.  Every string the module builds itself is ASCII; on ASCII
      text [lower], comparison and [quote] below agree with Python's.  On
      other text [quote] (which works on the UTF-8 bytes) and comparison (UTF-8
      keeps code-point order) still agree, [lower] leaves the non-ASCII bytes
      as they are.
    - [bytes] are a [string] as well, [len] is [String.length].
    - A [dict] with [str] keys is a [gmap string _]: keys are unique, and the
      module never depends on the insertion order of a dict (every iteration
      over one is either sorted afterwards or builds another dict).
    - An [int] is a [Z].
    - Exceptions are values of [exn]; code that talks to the clock or to the
      network is a [prog], a tree of those interactions. *)

From Stdlib Require Import ZArith DecimalString.
From Stdlib Require Import Ascii.
From Stdlib Require String.
From stdpp Require Import gmap strings list fin_maps sorting.

Local Open Scope Z_scope.

(** ** Python built-ins used by the module *)

Module Py.

Definition ord (c : ascii) : Z := Z.of_N (N_of_ascii c).
Definition chr (z : Z) : ascii := ascii_of_N (Z.to_N z).

Definition is_upper (c : ascii) : bool := (65 <=? ord c) && (ord c <=? 90).
Definition is_lower (c : ascii) : bool := (97 <=? ord c) && (ord c <=? 122).
Definition is_digit (c : ascii) : bool := (48 <=? ord c) && (ord c <=? 57).

Definition lower_char (c : ascii) : ascii :=
  if is_upper c then chr (ord c + 32) else c.

(** [s.lower()] on ASCII text: the letters A to Z are folded, every other
    byte is kept.  (Python folds the cased letters beyond ASCII too; a
    statement that rests on the lower-casing of arbitrary names says that
    they are ASCII.) *)
Fixpoint lower (s : string) : string :=
  match s with
  | EmptyString => EmptyString
  | String c s' => String (lower_char c) (lower s')
  end.

(** [c in chars] for a single character *)
Fixpoint char_in (c : ascii) (chars : string) : bool :=
  match chars with
  | EmptyString => false
  | String d chars' => Ascii.eqb c d || char_in c chars'
  end.

(** [s.startswith(p)] *)
Definition startswith (s p : string) : bool := String.prefix p s.

(** [s[n:]] *)
Fixpoint slice_from (n : nat) (s : string) : string :=
  match n, s with
  | O, _ => s
  | S _, EmptyString => EmptyString
  | S n', String _ s' => slice_from n' s'
  end.

(** [s.rstrip(chars)] *)
Fixpoint rstrip (s chars : string) : string :=
  match s with
  | EmptyString => EmptyString
  | String c s' =>
      match rstrip s' chars with
      | EmptyString => if char_in c chars then EmptyString else String c EmptyString
      | r => String c r
      end
  end.

(** [s.lstrip(chars)] *)
Fixpoint lstrip (s chars : string) : string :=
  match s with
  | EmptyString => EmptyString
  | String c s' => if char_in c chars then lstrip s' chars else s
  end.

(** [s.strip(chars)] *)
Definition strip (s chars : string) : string := rstrip (lstrip s chars) chars.

(** [sub in s] *)
Fixpoint contains (sub s : string) : bool :=
  String.prefix sub s ||
  match s with
  | EmptyString => false
  | String _ s' => contains sub s'
  end.

(** [sep.join(l)] *)
Fixpoint join (sep : string) (l : list string) : string :=
  match l with
  | [] => EmptyString
  | [x] => x
  | x :: l' => x +:+ sep +:+ join sep l'
  end.

(** [str(n)] for an [int] *)
Definition str (n : Z) : string := NilZero.string_of_int (Z.to_int n).

(** The string of a double quote *)
Definition dquote : string := String (chr 34) EmptyString.

(** [len(s)] *)
Definition len (s : string) : Z := Z.of_nat (String.length s).

(** Truth value of an optional string: [None] and [""] are false. *)
Definition truthy (o : option string) : bool :=
  match o with
  | None => false
  | Some s => negb (String.eqb s EmptyString)
  end.

(** [a or b] where [a] may be [None] or empty *)
Definition or_else (a b : option string) : option string :=
  if truthy a then a else b.

(** [sorted(l)] for a list of [str] *)
Definition sorted (l : list string) : list string := merge_sort String.le l.

(** Order of the tuples [(k, v)]: by [k], then by [v]. *)
Definition item_le (a b : string * string) : Prop :=
  if decide (a.1 = b.1) then String.le a.2 b.2 else String.le a.1 b.1.

#[global] Instance item_le_dec : RelDecision item_le.
Proof. intros a b. unfold item_le. destruct (decide (a.1 = b.1)); apply _. Defined.

(** [sorted(d.items())] *)
Definition sorted_items (d : gmap string string) : list (string * string) :=
  merge_sort item_le (map_to_list d).

(** [d.keys()], in some order *)
Definition keys (d : gmap string string) : list string := (map_to_list d).*1.

(** Digits of [int(s)]: decimal digits, single underscores between them. *)
Fixpoint digits_value (s : string) (acc : Z) (prev_digit : bool) : option Z :=
  match s with
  | EmptyString => if prev_digit then Some acc else None
  | String c s' =>
      if is_digit c then digits_value s' (10 * acc + (ord c - 48)) true
      else if Ascii.eqb c "_"%char then
        if prev_digit then digits_value s' acc false else None
      else None
  end.

(** The white space [int] skips around an ASCII number: tab, line feed,
    vertical tab, form feed, carriage return, space. *)
Definition whitespace : string :=
  String (chr 9) (String (chr 10) (String (chr 11) (String (chr 12)
    (String (chr 13) (String (chr 32) EmptyString))))).

(** The number of decimal digits of [s] *)
Fixpoint count_digits (s : string) : nat :=
  match s with
  | EmptyString => O
  | String c s' => if is_digit c then S (count_digits s') else count_digits s'
  end.

(** The most digits [int] converts ([sys.int_info.default_max_str_digits]). *)
Definition max_str_digits : nat := 4300.

(** [int(s)] for a [str] of ASCII characters: [None] stands for
    [ValueError].  Surrounding white space, an optional sign, decimal digits
    with single underscores between them, no more digits than the
    interpreter converts.  (For text that is not ASCII, which [int] reads
    by its Unicode digits and spaces, this is no model.) *)
Definition int (s : string) : option Z :=
  let body := strip s whitespace in
  if Nat.ltb max_str_digits (count_digits body) then None
  else
    match body with
    | String "-" s' => Z.opp <$> digits_value s' 0 false
    | String "+" s' => digits_value s' 0 false
    | s' => digits_value s' 0 false
    end.

(** [s.isascii()] *)
Fixpoint is_ascii (s : string) : bool :=
  match s with
  | EmptyString => true
  | String c s' => (ord c <? 128) && is_ascii s'
  end.

End Py.

(** ** [urllib.parse.quote] *)

Module Urllib.

(** The characters [quote] never escapes: letters, digits and [_.-~]. *)
Definition always_safe (c : ascii) : bool :=
  Py.is_upper c || Py.is_lower c || Py.is_digit c || Py.char_in c "_.-~".

Definition hex_upper (n : Z) : ascii :=
  if n <? 10 then Py.chr (48 + n) else Py.chr (55 + n).

(** ["%XX"], two upper-case hexadecimal digits *)
Definition percent (c : ascii) : string :=
  String "%" (String (hex_upper (Py.ord c / 16))
                (String (hex_upper (Py.ord c mod 16)) EmptyString)).

Definition quote_char (safe : string) (c : ascii) : string :=
  if always_safe c || Py.char_in c safe then String c EmptyString
  else percent c.

(** [quote(s, safe=safe)] *)
Fixpoint quote (s safe : string) : string :=
  match s with
  | EmptyString => EmptyString
  | String c s' => quote_char safe c +:+ quote s' safe
  end.

End Urllib.

(** ** [hashlib.sha1] and [hmac] with SHA-1, on bytes as numbers below 256 *)

Module Hashlib.

Definition bytes_of (s : string) : list Z :=
  Py.ord <$> String.list_ascii_of_string s.

Definition wrap32 (x : Z) : Z := x mod 2 ^ 32.
Definition add32 (x y : Z) : Z := wrap32 (x + y).
Definition rotl (n x : Z) : Z :=
  wrap32 (Z.lor (Z.shiftl x n) (Z.shiftr x (32 - n))).
Definition not32 (x : Z) : Z := Z.lxor x 0xFFFFFFFF.

(** Big-endian bytes of [x], [n] of them *)
Fixpoint be_bytes (n : nat) (x : Z) : list Z :=
  match n with
  | O => []
  | S n' => be_bytes n' (x / 256) ++ [x mod 256]
  end.

(** Message padding: the bit 1, zeros up to 56 modulo 64, the bit length. *)
Definition pad (msg : list Z) : list Z :=
  let ml := Z.of_nat (length msg) in
  msg ++ [0x80] ++ replicate (Z.to_nat ((55 - ml) mod 64)) 0 ++ be_bytes 8 (8 * ml).

Fixpoint words_of (bs : list Z) : list Z :=
  match bs with
  | a :: b :: c :: d :: rest =>
      Z.lor (Z.shiftl a 24) (Z.lor (Z.shiftl b 16) (Z.lor (Z.shiftl c 8) d))
        :: words_of rest
  | _ => []
  end.

(** The message schedule, latest word first. *)
Fixpoint extend (n : nat) (rw : list Z) : list Z :=
  match n with
  | O => rw
  | S n' =>
      let w := rotl 1 (Z.lxor (nth 2 rw 0)
                        (Z.lxor (nth 7 rw 0) (Z.lxor (nth 13 rw 0) (nth 15 rw 0)))) in
      extend n' (w :: rw)
  end.

Definition schedule (block : list Z) : list Z := rev (extend 64 (rev block)).

Definition state : Type := Z * Z * Z * Z * Z.

Definition round (i : Z) (st : state) (w : Z) : state :=
  let '(a, b, c, d, e) := st in
  let '(f, k) :=
    if i <? 20 then (Z.lor (Z.land b c) (Z.land (not32 b) d), 0x5A827999)
    else if i <? 40 then (Z.lxor b (Z.lxor c d), 0x6ED9EBA1)
    else if i <? 60 then
      (Z.lor (Z.land b c) (Z.lor (Z.land b d) (Z.land c d)), 0x8F1BBCDC)
    else (Z.lxor b (Z.lxor c d), 0xCA62C1D6) in
  let temp := add32 (rotl 5 a) (add32 f (add32 e (add32 k w))) in
  (temp, a, rotl 30 b, c, d).

Fixpoint rounds (i : Z) (ws : list Z) (st : state) : state :=
  match ws with
  | [] => st
  | w :: ws' => rounds (i + 1) ws' (round i st w)
  end.

Definition compress (h : state) (block : list Z) : state :=
  let '(h0, h1, h2, h3, h4) := h in
  let '(a, b, c, d, e) := rounds 0 (schedule block) h in
  (add32 h0 a, add32 h1 b, add32 h2 c, add32 h3 d, add32 h4 e).

Fixpoint blocks (n : nat) (ws : list Z) (h : state) : state :=
  match n with
  | O => h
  | S n' => blocks n' (drop 16 ws) (compress h (take 16 ws))
  end.

Definition initial : state :=
  (0x67452301, 0xEFCDAB89, 0x98BADCFE, 0x10325476, 0xC3D2E1F0).

(** [hashlib.sha1(msg).digest()] *)
Definition sha1_digest (msg : list Z) : list Z :=
  let ws := words_of (pad msg) in
  let '(h0, h1, h2, h3, h4) := blocks (length ws / 16) ws initial in
  be_bytes 4 h0 ++ be_bytes 4 h1 ++ be_bytes 4 h2 ++ be_bytes 4 h3 ++ be_bytes 4 h4.

Definition hex_lower (n : Z) : ascii :=
  if n <? 10 then Py.chr (48 + n) else Py.chr (87 + n).

Fixpoint hex (bs : list Z) : string :=
  match bs with
  | [] => EmptyString
  | b :: bs' => String (hex_lower (b / 16)) (String (hex_lower (b mod 16)) (hex bs'))
  end.

(** [hashlib.sha1(s.encode("utf-8")).hexdigest()] *)
Definition sha1_hexdigest (s : string) : string := hex (sha1_digest (bytes_of s)).

Definition hmac_digest (key msg : list Z) : list Z :=
  let k := if Nat.ltb 64 (length key) then sha1_digest key else key in
  let k := k ++ replicate (64 - length k) 0 in
  sha1_digest ((Z.lxor 0x5C <$> k) ++ sha1_digest ((Z.lxor 0x36 <$> k) ++ msg)).

(** [hmac.new(key.encode("utf-8"), msg.encode("utf-8"), hashlib.sha1).hexdigest()] *)
Definition hmac_sha1_hexdigest (key msg : string) : string :=
  hex (hmac_digest (bytes_of key) (bytes_of msg)).

End Hashlib.

(** ** The data model *)

(** Modelled from the spec: the configuration record of [.models], which is
    not part of the sources at hand.  Credentials (access-key id, access-key
    secret, optional session token) and endpoint configuration (optional
    endpoint, optional region, optional default bucket); the module tests
    every field for truth, so each is an optional string. *)
Module StorageConfig.
Record t : Type := Build {
  access_key_id : option string;
  access_key_secret : option string;
  session_token : option string;
  endpoint : option string;
  region : option string;
  bucket_name : option string }.
End StorageConfig.

(** What [StorageFile.data] holds: nothing, bytes, or a readable stream (with
    the bytes [read()] returns). *)
Inductive file_data : Type :=
| NoData
| Bytes (b : string)
| Stream (content : string).

(** Modelled from the spec: the upload request of [.models] (object key,
    payload, optional content type, optional metadata, optional per-file
    bucket). *)
Module StorageFile.
Record t : Type := Build {
  object_name : string;
  data : file_data;
  content_type : option string;
  metadata : option (gmap string string);
  bucket_name : option string }.
End StorageFile.

(** Modelled from the spec: the result of an upload of [.models] (permanent
    URL, bucket, object key, optional ETag). *)
Module UploadResult.
Record t : Type := Build {
  url : string;
  bucket_name : string;
  object_name : string;
  etag : option string }.
End UploadResult.

(** Modelled from the spec: the exceptions of [aury.sdk.storage.exceptions],
    which is not part of the sources at hand: the backend error and the
    not-found error, two distinct kinds.  With them, the [ValueError] of
    [int], which carries the text that is no number, and the exceptions of
    the HTTP client that the module does not catch, by their names. *)
Inductive exn : Type :=
| StorageBackendError (msg : string)
| StorageNotFoundError (msg : string)
| ValueError (msg : string)
| ClientException (name : string).

(** ** The HTTP client *)

Module Httpx.

Record request : Type := Request {
  method : string;
  url : string;
  headers : gmap string string;
  content : string }.

(** A response; its headers are looked up by lower-case name. *)
Record response : Type := Response {
  status_code : Z;
  resp_headers : gmap string string;
  resp_content : string;
  text : string }.

(** What a call of the client gives for the request handed to it: a
    response whatever its status, an [httpx.RequestError] (no connection,
    timeout, ...) with its message, or any other exception, by its name
    ([InvalidURL] for a URL the client cannot read, [UnicodeEncodeError] for
    a header value that is not ASCII, ...). *)
Inductive reply : Type :=
| Responded (r : response)
| RequestError (msg : string)
| Raised (name : string).

(** [response.raise_for_status()] raises [HTTPStatusError] unless the
    status is a 2xx one. *)
Definition is_success (r : response) : bool :=
  (200 <=? status_code r) && (status_code r <=? 299).

(** [response.headers.get(name)] *)
Definition get (r : response) (name : string) : option string :=
  resp_headers r !! name.

End Httpx.

(** ** Programs: interaction with the clock and the network *)

Inductive prog (A : Type) : Type :=
| Ret (a : A)
| Raise (e : exn)
| Clock (k : Z -> prog A)
| Http (rq : Httpx.request) (k : Httpx.reply -> prog A).

Arguments Ret {A} a.
Arguments Raise {A} e.
Arguments Clock {A} k.
Arguments Http {A} rq k.

Fixpoint bind {A B : Type} (p : prog A) (f : A -> prog B) : prog B :=
  match p with
  | Ret a => f a
  | Raise e => Raise e
  | Clock k => Clock (fun t => bind (k t) f)
  | Http rq k => Http rq (fun r => bind (k r) f)
  end.

#[global] Instance prog_ret : MRet prog := @Ret.
#[global] Instance prog_bind : MBind prog := fun A B f p => bind p f.

(** [int(time.time())] *)
Definition time_now : prog Z := Clock Ret.

(** [await client.request(...)] *)
Definition send (rq : Httpx.request) : prog Httpx.reply := Http rq Ret.

(** The world a program runs in: what the clock shows at its n-th reading,
    and what the client gives for a request handed to it, given the
    requests handed to it before. *)
Record env : Type := Env {
  clock : nat -> Z;
  network : list Httpx.request -> Httpx.request -> Httpx.reply }.

(** [run e p reads sent]: the result of [p] and the requests handed to the
    client, oldest first, after [reads] readings of the clock and the
    requests [sent]. *)
Fixpoint run {A : Type} (e : env) (p : prog A) (reads : nat)
    (sent : list Httpx.request) : (exn + A) * list Httpx.request :=
  match p with
  | Ret a => (inr a, sent)
  | Raise x => (inl x, sent)
  | Clock k => run e (k (clock e reads)) (S reads) sent
  | Http rq k => run e (k (network e sent rq)) reads (sent ++ [rq])
  end.

(** A whole call: nothing read and nothing sent before it. *)
Definition call {A : Type} (e : env) (p : prog A) : (exn + A) * list Httpx.request :=
  run e p O [].

(** ** [class COSStorage]

    An instance is its configuration: the lazily created HTTP client of
    [_ensure_client] and [close] holds no state the results depend on, and a
    request handed to it is a [send].  [upload_files], which runs uploads
    concurrently, is left out. *)

Module COSStorage.

Definition nl : string := String (Py.chr 10) EmptyString.

Definition _get_bucket (config : StorageConfig.t) (bucket_name : option string)
    : prog string :=
  let bucket := Py.or_else bucket_name (StorageConfig.bucket_name config) in
  if negb (Py.truthy bucket) then Raise (StorageBackendError "桶名未指定")
  else Ret (default EmptyString bucket).

Definition _get_host (config : StorageConfig.t) (bucket : string) : prog string :=
  if Py.truthy (StorageConfig.endpoint config) then
    let endpoint := default EmptyString (StorageConfig.endpoint config) in
    let endpoint :=
      if Py.startswith endpoint "https://" then Py.slice_from 8 endpoint
      else if Py.startswith endpoint "http://" then Py.slice_from 7 endpoint
      else endpoint in
    let endpoint := Py.rstrip endpoint "/" in
    if Py.contains bucket endpoint then Ret endpoint
    else Ret (bucket +:+ "." +:+ endpoint)
  else if negb (Py.truthy (StorageConfig.region config)) then
    Raise (StorageBackendError "Region 或 Endpoint 必须指定")
  else
    Ret (bucket +:+ ".cos." +:+ default EmptyString (StorageConfig.region config)
           +:+ ".myqcloud.com").

Definition _get_base_url (config : StorageConfig.t) (bucket : string) : prog string :=
  host ← _get_host config bucket;
  Ret ("https://" +:+ host).

Definition _read_file_data (file : StorageFile.t) : string :=
  match StorageFile.data file with
  | NoData => EmptyString
  | Bytes b => b
  | Stream content => content
  end.

(** *** The signing algorithm *)

Definition valid_headers : gset string :=
  {[ "cache-control"; "content-disposition"; "content-encoding";
     "content-type"; "content-md5"; "content-length"; "expect"; "expires";
     "host"; "if-match"; "if-modified-since"; "if-none-match";
     "if-unmodified-since"; "origin"; "range"; "transfer-encoding" ]}.

(** The test of the loop of [_filter_headers] *)
Definition signed_header (k : string) : bool :=
  let key_lower := Py.lower k in
  bool_decide (key_lower ∈ valid_headers) || Py.startswith key_lower "x-cos-".

Definition _filter_headers (headers : gmap string string) : gmap string string :=
  map_fold (fun k v result => if signed_header k then <[k := v]> result else result)
    ∅ headers.

(** One [key=value] of the canonical strings *)
Definition canonical_pair (kv : string * string) : string :=
  Urllib.quote (Py.lower kv.1) "-_.~" +:+ "=" +:+ Urllib.quote kv.2 "-_.~".

Definition param_str (params : gmap string string) : string :=
  Py.join "&" (canonical_pair <$> Py.sorted_items params).

Definition header_str (sign_headers : gmap string string) : string :=
  Py.join "&" (canonical_pair <$> Py.sorted_items sign_headers).

Definition http_string (method path : string)
    (params sign_headers : gmap string string) : string :=
  Py.lower method +:+ nl +:+ path +:+ nl +:+ param_str params +:+ nl
    +:+ header_str sign_headers +:+ nl.

Definition sign_time (now expire : Z) : string :=
  let start_time := now - 60 in
  let end_time := start_time + expire + 60 in
  Py.str start_time +:+ ";" +:+ Py.str end_time.

Definition signature (secret_key sign_time http_string : string) : string :=
  let sha1_hash := Hashlib.sha1_hexdigest http_string in
  let string_to_sign := "sha1" +:+ nl +:+ sign_time +:+ nl +:+ sha1_hash +:+ nl in
  let sign_key := Hashlib.hmac_sha1_hexdigest secret_key sign_time in
  Hashlib.hmac_sha1_hexdigest sign_key string_to_sign.

Definition default_expire : Z := 10000.

(** Steps 2 to 6 of [_sign]: the authorization value for the filtered
    headers and the reading [now] of the clock. *)
Definition auth_string (secret_id secret_key method path : string)
    (params sign_headers : gmap string string) (now expire : Z) : string :=
  let http_string := http_string method path params sign_headers in
  let sign_time := sign_time now expire in
  let signature := signature secret_key sign_time http_string in
  "q-sign-algorithm=sha1"
  +:+ "&q-ak=" +:+ secret_id
  +:+ "&q-sign-time=" +:+ sign_time
  +:+ "&q-key-time=" +:+ sign_time
  +:+ "&q-header-list="
  +:+ Py.join ";" (Py.sorted (Py.lower <$> Py.keys sign_headers))
  +:+ "&q-url-param-list="
  +:+ Py.join ";" (Py.sorted (Py.lower <$> Py.keys params))
  +:+ "&q-signature=" +:+ signature.

Definition _sign (config : StorageConfig.t) (method path : string)
    (params headers : option (gmap string string)) (expire : Z) : prog string :=
  let secret_id := StorageConfig.access_key_id config in
  let secret_key := StorageConfig.access_key_secret config in
  if negb (Py.truthy secret_id) || negb (Py.truthy secret_key) then
    Raise (StorageBackendError "缺少访问密钥")
  else
    let params := default ∅ params in
    let headers := default ∅ headers in
    let sign_headers := _filter_headers headers in
    now ← time_now;
    Ret (auth_string (default EmptyString secret_id) (default EmptyString secret_key)
           method path params sign_headers now expire).

Definition _build_url (config : StorageConfig.t) (bucket object_name : string)
    : prog string :=
  host ← _get_host config bucket;
  let encoded_name := Urllib.quote object_name "/-_.~" in
  Ret ("https://" +:+ host +:+ "/" +:+ encoded_name).

Definition _get_presigned_url (config : StorageConfig.t)
    (bucket object_name method : string) (expires_in : Z) : prog string :=
  host ← _get_host config bucket;
  let path :=
    if negb (Py.startswith object_name "/") then "/" +:+ object_name
    else object_name in
  let encoded_path := Urllib.quote path "/-_.~" in
  let headers : gmap string string := {[ "host" := host ]} in
  auth ← _sign config method path (Some ∅) (Some headers) expires_in;
  Ret ("https://" +:+ host +:+ encoded_path +:+ "?" +:+ auth).

(** *** The operations of [IStorage] *)

Definition upload_file (config : StorageConfig.t) (file : StorageFile.t)
    (bucket_name : option string) : prog UploadResult.t :=
  bucket ← _get_bucket config
             (Py.or_else bucket_name (StorageFile.bucket_name file));
  let data := _read_file_data file in
  host ← _get_host config bucket;
  let object_name := StorageFile.object_name file in
  let path :=
    if negb (Py.startswith object_name "/") then "/" +:+ object_name
    else object_name in
  let url := "https://" +:+ host +:+ Urllib.quote path "/-_.~" in
  let headers : gmap string string :=
    <["content-length" := Py.str (Py.len data)]> {[ "host" := host ]} in
  let headers :=
    if Py.truthy (StorageFile.content_type file) then
      <["content-type" := default EmptyString (StorageFile.content_type file)]> headers
    else headers in
  let headers :=
    match StorageFile.metadata file with
    | Some metadata =>
        map_fold (fun k v headers => <["x-cos-meta-" +:+ k := v]> headers)
          headers metadata
    | None => headers
    end in
  let headers :=
    if Py.truthy (StorageConfig.session_token config) then
      <["x-cos-security-token" :=
          default EmptyString (StorageConfig.session_token config)]> headers
    else headers in
  auth ← _sign config "PUT" path (Some ∅) (Some headers) default_expire;
  let headers := <["authorization" := auth]> headers in
  reply ← send (Httpx.Request "PUT" url headers data);
  match reply with
  | Httpx.RequestError e => Raise (StorageBackendError ("COS 请求失败: " +:+ e))
  | Httpx.Raised name => Raise (ClientException name)
  | Httpx.Responded response =>
      if negb (Httpx.is_success response) then
        Raise (StorageBackendError
                 ("COS 上传失败: " +:+ Py.str (Httpx.status_code response)
                    +:+ " " +:+ Httpx.text response))
      else
        let etag := Py.strip (default EmptyString (Httpx.get response "etag")) Py.dquote in
        url ← _build_url config bucket object_name;
        Ret (UploadResult.Build url bucket object_name
               (if Py.truthy (Some etag) then Some etag else None))
  end.

Definition delete_file (config : StorageConfig.t) (object_name : string)
    (bucket_name : option string) : prog unit :=
  bucket ← _get_bucket config bucket_name;
  host ← _get_host config bucket;
  let path :=
    if negb (Py.startswith object_name "/") then "/" +:+ object_name
    else object_name in
  let url := "https://" +:+ host +:+ Urllib.quote path "/-_.~" in
  let headers : gmap string string := {[ "host" := host ]} in
  let headers :=
    if Py.truthy (StorageConfig.session_token config) then
      <["x-cos-security-token" :=
          default EmptyString (StorageConfig.session_token config)]> headers
    else headers in
  auth ← _sign config "DELETE" path (Some ∅) (Some headers) default_expire;
  let headers := <["authorization" := auth]> headers in
  reply ← send (Httpx.Request "DELETE" url headers EmptyString);
  match reply with
  | Httpx.RequestError e => Raise (StorageBackendError ("COS 请求失败: " +:+ e))
  | Httpx.Raised name => Raise (ClientException name)
  | Httpx.Responded response =>
      if negb (bool_decide (Httpx.status_code response ∈ [200; 204; 404]))
         && negb (Httpx.is_success response) then
        Raise (StorageBackendError
                 ("COS 删除失败: " +:+ Py.str (Httpx.status_code response)
                    +:+ " " +:+ Httpx.text response))
      else Ret tt
  end.

Definition get_file_url (config : StorageConfig.t) (object_name : string)
    (bucket_name : option string) (expires_in : option Z) : prog string :=
  bucket ← _get_bucket config bucket_name;
  match expires_in with
  | Some expires_in =>
      if negb (expires_in =? 0) then
        _get_presigned_url config bucket object_name "GET" expires_in
      else _build_url config bucket object_name
  | None => _build_url config bucket object_name
  end.

Definition file_exists (config : StorageConfig.t) (object_name : string)
    (bucket_name : option string) : prog bool :=
  bucket ← _get_bucket config bucket_name;
  host ← _get_host config bucket;
  let path :=
    if negb (Py.startswith object_name "/") then "/" +:+ object_name
    else object_name in
  let url := "https://" +:+ host +:+ Urllib.quote path "/-_.~" in
  let headers : gmap string string := {[ "host" := host ]} in
  let headers :=
    if Py.truthy (StorageConfig.session_token config) then
      <["x-cos-security-token" :=
          default EmptyString (StorageConfig.session_token config)]> headers
    else headers in
  auth ← _sign config "HEAD" path (Some ∅) (Some headers) default_expire;
  let headers := <["authorization" := auth]> headers in
  reply ← send (Httpx.Request "HEAD" url headers EmptyString);
  match reply with
  | Httpx.RequestError _ => Ret false
  | Httpx.Raised name => Raise (ClientException name)
  | Httpx.Responded response => Ret (Httpx.status_code response =? 200)
  end.

Definition download_file (config : StorageConfig.t) (object_name : string)
    (bucket_name : option string) : prog string :=
  bucket ← _get_bucket config bucket_name;
  host ← _get_host config bucket;
  let path :=
    if negb (Py.startswith object_name "/") then "/" +:+ object_name
    else object_name in
  let url := "https://" +:+ host +:+ Urllib.quote path "/-_.~" in
  let headers : gmap string string := {[ "host" := host ]} in
  let headers :=
    if Py.truthy (StorageConfig.session_token config) then
      <["x-cos-security-token" :=
          default EmptyString (StorageConfig.session_token config)]> headers
    else headers in
  auth ← _sign config "GET" path (Some ∅) (Some headers) default_expire;
  let headers := <["authorization" := auth]> headers in
  reply ← send (Httpx.Request "GET" url headers EmptyString);
  match reply with
  | Httpx.RequestError e => Raise (StorageBackendError ("COS 请求失败: " +:+ e))
  | Httpx.Raised name => Raise (ClientException name)
  | Httpx.Responded response =>
      if Httpx.status_code response =? 404 then
        Raise (StorageNotFoundError ("文件不存在: " +:+ object_name))
      else if negb (Httpx.is_success response) then
        if Httpx.status_code response =? 404 then
          Raise (StorageNotFoundError ("文件不存在: " +:+ object_name))
        else
          Raise (StorageBackendError
                   ("COS 下载失败: " +:+ Py.str (Httpx.status_code response)
                      +:+ " " +:+ Httpx.text response))
      else Ret (Httpx.resp_content response)
  end.

Definition _get_file_size (config : StorageConfig.t) (bucket object_name : string)
    : prog Z :=
  host ← _get_host config bucket;
  let path :=
    if negb (Py.startswith object_name "/") then "/" +:+ object_name
    else object_name in
  let url := "https://" +:+ host +:+ Urllib.quote path "/-_.~" in
  let headers : gmap string string := {[ "host" := host ]} in
  let headers :=
    if Py.truthy (StorageConfig.session_token config) then
      <["x-cos-security-token" :=
          default EmptyString (StorageConfig.session_token config)]> headers
    else headers in
  auth ← _sign config "HEAD" path (Some ∅) (Some headers) default_expire;
  let headers := <["authorization" := auth]> headers in
  reply ← send (Httpx.Request "HEAD" url headers EmptyString);
  match reply with
  | Httpx.RequestError _ => Ret 0
  | Httpx.Raised name => Raise (ClientException name)
  | Httpx.Responded response =>
      if Httpx.status_code response =? 200 then
        let content_length := Httpx.get response "content-length" in
        if Py.truthy content_length then
          match Py.int (default EmptyString content_length) with
          | Some n => Ret n
          | None => Raise (ValueError (default EmptyString content_length))
          end
        else Ret 0
      else Ret 0
  end.

Definition append_file (config : StorageConfig.t) (object_name data : string)
    (bucket_name : option string) (position : option Z) : prog Z :=
  bucket ← _get_bucket config bucket_name;
  position ← match position with
             | None => _get_file_size config bucket object_name
             | Some position => Ret position
             end;
  host ← _get_host config bucket;
  let path :=
    if negb (Py.startswith object_name "/") then "/" +:+ object_name
    else object_name in
  let params : gmap string string :=
    <["position" := Py.str position]> {[ "append" := EmptyString ]} in
  let url := "https://" +:+ host +:+ Urllib.quote path "/-_.~"
               +:+ "?append=&position=" +:+ Py.str position in
  let headers : gmap string string :=
    <["content-length" := Py.str (Py.len data)]> {[ "host" := host ]} in
  let headers :=
    if Py.truthy (StorageConfig.session_token config) then
      <["x-cos-security-token" :=
          default EmptyString (StorageConfig.session_token config)]> headers
    else headers in
  auth ← _sign config "POST" path (Some params) (Some headers) default_expire;
  let headers := <["authorization" := auth]> headers in
  reply ← send (Httpx.Request "POST" url headers data);
  match reply with
  | Httpx.RequestError e => Raise (StorageBackendError ("COS 请求失败: " +:+ e))
  | Httpx.Raised name => Raise (ClientException name)
  | Httpx.Responded response =>
      if negb (Httpx.is_success response) then
        Raise (StorageBackendError
                 ("COS 追加失败: " +:+ Py.str (Httpx.status_code response)
                    +:+ " " +:+ Httpx.text response))
      else
        let next_position := Httpx.get response "x-cos-next-append-position" in
        if Py.truthy next_position then
          match Py.int (default EmptyString next_position) with
          | Some n => Ret n
          | None => Raise (ValueError (default EmptyString next_position))
          end
        else Ret (position + Py.len data)
  end.

End COSStorage.


(** ** Vocabulary of the statements *)

(** [n] slashes *)
Fixpoint slashes (n : nat) : string :=
  match n with
  | O => EmptyString
  | S n' => String "/" (slashes n')
  end.

(** An optional setting that is given and not empty... *)
Definition configured (o : option string) (s : string) : Prop :=
  o = Some s /\ s <> EmptyString.

(** ... or absent or empty. *)
Definition unusable (o : option string) : Prop :=
  o = None \/ o = Some EmptyString.

(** [e'] is [e] without a leading [https://] or, failing that, [http://]. *)
Definition without_scheme (e e' : string) : Prop :=
  e = "https://" +:+ e'
  \/ ((forall r, e <> "https://" +:+ r) /\ e = "http://" +:+ e')
  \/ ((forall r, e <> "https://" +:+ r) /\ (forall r, e <> "http://" +:+ r) /\ e' = e).

(** [e'] is [e] without its trailing slashes. *)
Definition without_trailing_slashes (e e' : string) : Prop :=
  (exists n, e = e' +:+ slashes n) /\ forall r, e' <> r +:+ "/".

(** [sub] occurs in [s]. *)
Definition substring (sub s : string) : Prop :=
  exists pre post, s = pre +:+ sub +:+ post.

(** The allow-list of signed headers, as the specification gives it. *)
Definition allow_list : list string :=
  [ "host"; "content-type"; "content-md5"; "content-length"; "cache-control";
    "content-disposition"; "content-encoding"; "expect"; "expires";
    "if-match"; "if-modified-since"; "if-none-match"; "if-unmodified-since";
    "origin"; "range"; "transfer-encoding" ].

(** The prefix of the provider's own headers. *)
Definition provider_prefix : string := "x-cos-".

(** A header name takes part in signing. *)
Definition retained (name : string) : Prop :=
  Py.lower name ∈ allow_list \/ exists rest, Py.lower name = provider_prefix +:+ rest.

(** The key a pair is listed under in a canonical string: its lower-cased
    key, URL-encoded. *)
Definition encoded_key (kv : string * string) : string :=
  Urllib.quote (Py.lower kv.1) "-_.~".

(** A key that lower-casing and URL-encoding leave as it is: lower-case
    letters, digits and [-_.~]. *)
Definition plain_char (c : ascii) : bool :=
  Py.is_lower c || Py.is_digit c || Py.char_in c "-_.~".

Fixpoint plain (s : string) : bool :=
  match s with
  | EmptyString => true
  | String c s' => plain_char c && plain s'
  end.



(** The kinds of error. *)
Inductive error_kind : Type := BackendKind | NotFoundKind | ValueKind | ClientKind.

Definition kind_of (x : exn) : error_kind :=
  match x with
  | StorageBackendError _ => BackendKind
  | StorageNotFoundError _ => NotFoundKind
  | ValueError _ => ValueKind
  | ClientException _ => ClientKind
  end.

(** A program that raises [StorageBackendError] without reading the clock
    or sending a request, in whatever world it runs. *)
Definition fails_before_io {A : Type} (p : prog A) : Prop :=
  exists msg, forall e reads sent,
    run e p reads sent = (inl (StorageBackendError msg), sent).

(** The access-key id or the secret is absent or empty. *)
Definition no_credentials (config : StorageConfig.t) : Prop :=
  unusable (StorageConfig.access_key_id config)
  \/ unusable (StorageConfig.access_key_secret config).

(** Neither the argument of the call nor the configuration names a bucket. *)
Definition no_bucket (config : StorageConfig.t) (bucket_name : option string) : Prop :=
  unusable bucket_name /\ unusable (StorageConfig.bucket_name config).

(** A string that starts with two slashes. *)
Definition doubled_slash (s : string) : Prop := exists rest, s = "//" +:+ rest.

(** ** Requests, as the statements describe them *)

(** The path of an object key: the key itself when it starts with a slash,
    the key behind a slash otherwise. *)
Definition path_of (object_name : string) : string :=
  if Py.startswith object_name "/" then object_name else "/" +:+ object_name.

(** The headers of a request without a body, before signing: the host, and
    the security token when the configuration has one. *)
Definition base_headers (config : StorageConfig.t) (host : string)
    : gmap string string :=
  if Py.truthy (StorageConfig.session_token config) then
    <["x-cos-security-token" :=
        default EmptyString (StorageConfig.session_token config)]> {[ "host" := host ]}
  else {[ "host" := host ]}.

(** The headers of a request with a body of [n] bytes, before signing. *)
Definition body_headers (config : StorageConfig.t) (host : string) (n : Z)
    : gmap string string :=
  if Py.truthy (StorageConfig.session_token config) then
    <["x-cos-security-token" :=
        default EmptyString (StorageConfig.session_token config)]>
      (<["content-length" := Py.str n]> {[ "host" := host ]})
  else <["content-length" := Py.str n]> {[ "host" := host ]}.

(** The URL of the object at [path] on [host]: the path is percent-encoded,
    its slashes kept. *)
Definition object_url (host path : string) : string :=
  "https://" +:+ host +:+ Urllib.quote path "/-_.~".

(** The request to [url], signed at [now] with the credentials [id] and
    [key] over [path], [params] and the filtered [headers]. *)
Definition signed_request (id key method url path : string)
    (params headers : gmap string string) (content : string) (now : Z)
    : Httpx.request :=
  Httpx.Request method url
    (<["authorization" :=
         COSStorage.auth_string id key method path params
           (COSStorage._filter_headers headers) now COSStorage.default_expire]> headers)
    content.

(** The configuration resolves the bucket [b] and the host [h] for a call
    with the bucket argument [bucket_name], and holds the credentials [id]
    and [key]. *)
Record resolves (config : StorageConfig.t) (bucket_name : option string)
    (b h id key : string) : Prop := Resolves {
  resolves_bucket : COSStorage._get_bucket config bucket_name = Ret b;
  resolves_host : COSStorage._get_host config b = Ret h;
  resolves_id : configured (StorageConfig.access_key_id config) id;
  resolves_key : configured (StorageConfig.access_key_secret config) key }.

(** The headers of an upload, before signing: host, content length, the
    content type if there is one, a header for each metadata entry, the
    security token if there is one. *)
Definition upload_headers (config : StorageConfig.t) (file : StorageFile.t)
    (host : string) : gmap string string :=
  let headers : gmap string string :=
    <["content-length" := Py.str (Py.len (COSStorage._read_file_data file))]>
      {[ "host" := host ]} in
  let headers :=
    if Py.truthy (StorageFile.content_type file) then
      <["content-type" := default EmptyString (StorageFile.content_type file)]> headers
    else headers in
  let headers :=
    match StorageFile.metadata file with
    | Some metadata =>
        map_fold (fun k v headers => <["x-cos-meta-" +:+ k := v]> headers)
          headers metadata
    | None => headers
    end in
  if Py.truthy (StorageConfig.session_token config) then
    <["x-cos-security-token" :=
        default EmptyString (StorageConfig.session_token config)]> headers
  else headers.

(** The parameters of an append at [position]. *)
Definition append_params (position : Z) : gmap string string :=
  <["position" := Py.str position]> {[ "append" := EmptyString ]}.

(** What the size probe of an append makes of the reply to its [HEAD]. *)
Definition probe (reply : Httpx.reply) : exn + Z :=
  match reply with
  | Httpx.RequestError _ => inr 0
  | Httpx.Raised name => inl (ClientException name)
  | Httpx.Responded r =>
      if Httpx.status_code r =? 200 then
        match Httpx.get r "content-length" with
        | None => inr 0
        | Some s =>
            if String.eqb s EmptyString then inr 0
            else match Py.int s with
                 | Some n => inr n
                 | None => inl (ValueError s)
                 end
        end
      else inr 0
  end.


(** ** Sample inputs *)

Module Sample.

(** Credentials and a region, a default bucket. *)
Definition config : StorageConfig.t :=
  StorageConfig.Build (Some "AKID") (Some "secret") None None
    (Some "ap-guangzhou") (Some "b1").

(** The same without a secret. *)
Definition config_no_secret : StorageConfig.t :=
  StorageConfig.Build (Some "AKID") None None None (Some "ap-guangzhou") (Some "b1").

Definition host : string := "b1.cos.ap-guangzhou.myqcloud.com".

Definition response (status : Z) (headers : gmap string string) (body : string)
    : Httpx.response :=
  Httpx.Response status headers body body.

(** A world whose clock stands at 1700000000 and whose server answers
    every request with [r]. *)
Definition always (r : Httpx.reply) : env :=
  Env (fun _ => 1700000000) (fun _ _ => r).

(** Metadata with keys of mixed case, and the headers [upload_file] makes
    of it for an empty payload. *)
Definition mixed_metadata : gmap string string :=
  <["a" := "2"]> {[ "B" := "1" ]}.

Definition mixed_headers : gmap string string :=
  <["x-cos-meta-a" := "2"]> (<["x-cos-meta-B" := "1"]>
    (<["content-length" := "0"]> {[ "host" := host ]})).

Definition mixed_file : StorageFile.t :=
  StorageFile.Build "a.txt" NoData None (Some mixed_metadata) None.


End Sample.


(** ** Vocabulary of the further statements *)

(** The last character of a string, if it has one. *)
Fixpoint last_char (s : string) : option ascii :=
  match s with
  | EmptyString => None
  | String c EmptyString => Some c
  | String _ s' => last_char s'
  end.

(** [s] ends in the character [c]. *)
Definition ends_in (c : ascii) (s : string) : Prop :=
  exists rest, s = rest +:+ String c EmptyString.

(** [s] starts with the character [c]. *)
Definition starts_in (c : ascii) (s : string) : Prop :=
  exists rest, s = String c rest.

(** Every header of [headers] takes part in signing. *)
Definition all_signed (headers : gmap string string) : Prop :=
  forall k v, headers !! k = Some v -> retained k.

(** The request [rq] carries, as its [authorization], the value signed at
    [now] over [path], [params] and its own headers as the filter leaves
    them; and each of its other headers takes part in signing. *)
Definition self_signed (id key path : string) (params : gmap string string)
    (now : Z) (rq : Httpx.request) : Prop :=
  Httpx.headers rq !! "authorization"
  = Some (COSStorage.auth_string id key (Httpx.method rq) path params
            (COSStorage._filter_headers (Httpx.headers rq)) now
            COSStorage.default_expire)
  /\ forall k v, Httpx.headers rq !! k = Some v -> k = "authorization" \/ retained k.

(** A file with a content type and one metadata entry, for the default
    bucket. *)
Definition sample_report : StorageFile.t :=
  StorageFile.Build "reports/q1.csv" (Bytes "a,b") (Some "text/csv")
    (Some {[ "owner" := "ops" ]}) None.

(** Run after the requests [sent], the program [p] sends at most [n] more. *)
Definition sends_at_most {A : Type} (n : nat) (e : env) (p : prog A) (reads : nat)
    (sent : list Httpx.request) : Prop :=
  exists l, (run e p reads sent).2 = sent ++ l /\ (length l <= n)%nat.


(** * Properties *)

#[local] Set Warnings "-clear-no-such-hyp".

(** ** Strings *)

#[local] Arguments String.append !_ _ / : simpl nomatch.

Section string_facts.

Implicit Types s p sub rest : string.


Lemma string_app_assoc s1 s2 s3 : (s1 +:+ s2) +:+ s3 = s1 +:+ (s2 +:+ s3).
Proof. induction s1 as [|c s1 IH]; simpl; [done | by rewrite IH]. Qed.

Lemma prefix_app p rest : String.prefix p (p +:+ rest) = true.
Proof.
  induction p as [|c p IH]; simpl; [by destruct rest |].
  destruct (ascii_dec c c); [done | congruence].
Qed.

Lemma prefix_split p s : String.prefix p s = true -> exists rest, s = p +:+ rest.
Proof.
  revert s. induction p as [|c p IH]; intros s H.
  - by exists s.
  - destruct s as [|d s]; simpl in H; [done |].
    destruct (ascii_dec c d) as [->|]; [| done].
    destruct (IH s H) as [rest ->]. by exists rest.
Qed.

(** [s.startswith(p)] holds exactly when [s] is [p] followed by something. *)
Lemma startswith_spec s p :
  Py.startswith s p = true <-> exists rest, s = p +:+ rest.
Proof.
  unfold Py.startswith. split; [apply prefix_split |].
  intros [rest ->]. apply prefix_app.
Qed.


Lemma contains_unfold sub s :
  Py.contains sub s =
  String.prefix sub s
  || match s with EmptyString => false | String _ s' => Py.contains sub s' end.
Proof. by destruct s. Qed.

(** [sub in s] holds exactly when [s] is [sub] with something around it. *)
Lemma contains_spec sub s :
  Py.contains sub s = true <-> exists pre post, s = pre +:+ sub +:+ post.
Proof.
  split.
  - induction s as [|c s IH]; rewrite contains_unfold; intros H;
      apply orb_true_iff in H as [H|H]; try done.
    + apply prefix_split in H as [rest ->]. by exists EmptyString, rest.
    + apply prefix_split in H as [rest ->]. by exists EmptyString, rest.
    + destruct (IH H) as (pre & post & ->). by exists (String c pre), post.
  - intros (pre & post & ->). induction pre as [|c pre IH].
    + rewrite contains_unfold. change (EmptyString +:+ sub +:+ post) with (sub +:+ post).
      by rewrite prefix_app.
    + change (String.prefix sub (String c (pre +:+ sub +:+ post))
              || Py.contains sub (pre +:+ sub +:+ post) = true).
      rewrite IH. apply orb_true_r.
Qed.



Lemma rstrip_cons c s :
  Py.rstrip (String c s) "/" =
  match Py.rstrip s "/" with
  | EmptyString => if Py.char_in c "/" then EmptyString else String c EmptyString
  | r => String c r
  end.
Proof. done. Qed.

Lemma char_in_slash c : Py.char_in c "/" = true <-> c = "/"%char.
Proof.
  unfold Py.char_in. rewrite orb_false_r.
  destruct (Ascii.eqb_spec c "/"); split; congruence.
Qed.

(** [s.rstrip("/")] takes a run of slashes off the end of [s]... *)
Lemma rstrip_split s : exists n, s = Py.rstrip s "/" +:+ slashes n.
Proof.
  induction s as [|c s [n IH]]; [by exists O |].
  rewrite rstrip_cons. destruct (Py.rstrip s "/") as [|d r] eqn:E.
  - destruct (Py.char_in c "/") eqn:Hc.
    + apply char_in_slash in Hc as ->. exists (S n). simpl in *. by rewrite <- IH.
    + exists n. simpl in *. by rewrite <- IH.
  - exists n. simpl in *. by rewrite <- IH.
Qed.

(** ... and what is left does not end in a slash. *)
Lemma rstrip_no_slash s rest : Py.rstrip s "/" <> rest +:+ "/".
Proof.
  revert rest. induction s as [|c s IH]; intros rest.
  - by destruct rest.
  - rewrite rstrip_cons. destruct (Py.rstrip s "/") as [|d r] eqn:E.
    + destruct (Py.char_in c "/") eqn:Hc.
      * by destruct rest.
      * destruct rest as [|e [|? ?]]; simpl; [| done..].
        intros [= ->]. by rewrite (proj2 (char_in_slash "/")) in Hc.
    + destruct rest as [|e rest]; simpl; [congruence |].
      intros [= -> H]. by apply (IH rest).
Qed.

End string_facts.

(** ** Host resolution *)

Section host_resolution.

Import COSStorage.

Lemma truthy_configured o : Py.truthy o = true <-> exists s, configured o s.
Proof.
  unfold configured. destruct o as [s|]; simpl.
  - destruct (String.eqb_spec s EmptyString) as [->|Hs]; simpl.
    + split; [done | intros (s & [= <-] & H); done].
    + split; [by exists s | done].
  - split; [done | by intros (s & ? & ?)].
Qed.

Lemma truthy_unusable o : Py.truthy o = false <-> unusable o.
Proof.
  unfold unusable. destruct o as [s|]; simpl.
  - destruct (String.eqb_spec s EmptyString) as [->|Hs]; simpl.
    + split; auto.
    + split; [done | intros [|[= ->]]; done].
  - split; auto.
Qed.

Lemma truthy_default o s : configured o s -> default EmptyString o = s.
Proof. by intros [-> _]. Qed.

Lemma strip_scheme_spec e :
  without_scheme e
    (if Py.startswith e "https://" then Py.slice_from 8 e
     else if Py.startswith e "http://" then Py.slice_from 7 e
     else e).
Proof.
  unfold without_scheme.
  destruct (Py.startswith e "https://") eqn:H1.
  { apply startswith_spec in H1 as [rest ->]. left.
    reflexivity. }
  assert (forall r, e <> "https://" +:+ r) as N1.
  { intros r ->. by rewrite (proj2 (startswith_spec _ _)) in H1; [| exists r]. }
  destruct (Py.startswith e "http://") eqn:H2.
  { apply startswith_spec in H2 as [rest ->]. right; left. split; [done |].
    reflexivity. }
  right; right. split; [done |]. split; [| done].
  intros r ->. by rewrite (proj2 (startswith_spec _ _)) in H2; [| exists r].
Qed.

Lemma rstrip_spec e : without_trailing_slashes e (Py.rstrip e "/").
Proof. split; [apply rstrip_split | apply rstrip_no_slash]. Qed.

(** C3.  Host resolution.  With an endpoint configured, the host is the
    endpoint without a leading [https://] or [http://] and without trailing
    slashes: as it is when the bucket name occurs in it, and with the
    bucket and a dot in front otherwise.  Without an endpoint and with a
    region, it is [{bucket}.cos.{region}.myqcloud.com].  With neither, an
    error is raised.  The three examples of the specification follow. *)
Theorem get_host_resolution (config : StorageConfig.t) (bucket : string) :
  (forall e, configured (StorageConfig.endpoint config) e ->
     exists e1 e2,
       without_scheme e e1 /\ without_trailing_slashes e1 e2 /\
       ((substring bucket e2 /\ _get_host config bucket = Ret e2) \/
        (~ substring bucket e2 /\
         _get_host config bucket = Ret (bucket +:+ "." +:+ e2))))
  /\ (forall r, unusable (StorageConfig.endpoint config) ->
        configured (StorageConfig.region config) r ->
        _get_host config bucket = Ret (bucket +:+ ".cos." +:+ r +:+ ".myqcloud.com"))
  /\ (unusable (StorageConfig.endpoint config) ->
      unusable (StorageConfig.region config) ->
      exists msg, _get_host config bucket = Raise (StorageBackendError msg))
  /\ (StorageConfig.endpoint config = Some "https://accel.example.com" ->
      _get_host config "b1" = Ret "b1.accel.example.com")
  /\ (StorageConfig.endpoint config = Some "https://b1.accel.example.com" ->
      _get_host config "b1" = Ret "b1.accel.example.com")
  /\ (StorageConfig.endpoint config = None ->
      StorageConfig.region config = Some "ap-guangzhou" ->
      _get_host config "b1" = Ret "b1.cos.ap-guangzhou.myqcloud.com").
Proof.
  repeat split.
  - intros e He. unfold _get_host.
    rewrite (proj2 (truthy_configured _)) by eauto.
    rewrite (truthy_default _ _ He).
    eexists _, _. split; [apply strip_scheme_spec |].
    split; [apply rstrip_spec |].
    match goal with |- context [Py.contains ?b ?s] =>
      destruct (Py.contains b s) eqn:Hc end.
    + left. split; [by apply contains_spec | done].
    + right. split; [| done]. intros Hs%contains_spec. congruence.
  - intros r He Hr. unfold _get_host.
    rewrite (proj2 (truthy_unusable _)) by done.
    rewrite (proj2 (truthy_configured _)) by eauto. simpl.
    by rewrite (truthy_default _ _ Hr).
  - intros He Hr. unfold _get_host.
    rewrite !(proj2 (truthy_unusable _)) by done. simpl. eauto.
  - intros E. unfold _get_host. by rewrite E.
  - intros E. unfold _get_host. by rewrite E.
  - intros E1 E2. unfold _get_host. by rewrite E1, E2.
Qed.

End host_resolution.

(** ** The header filter *)

Section header_filter.

Import COSStorage.

Lemma valid_headers_allow_list (name : string) :
  name ∈ valid_headers <-> name ∈ allow_list.
Proof. unfold valid_headers, allow_list. set_solver. Qed.

Lemma signed_header_retained (k : string) : signed_header k = true <-> retained k.
Proof.
  unfold signed_header, retained, provider_prefix.
  rewrite orb_true_iff, bool_decide_eq_true, valid_headers_allow_list.
  by rewrite startswith_spec.
Qed.

(** The loop of [_filter_headers] keeps the entries that pass its test. *)
Lemma filter_headers_lookup (headers : gmap string string) (k : string) :
  _filter_headers headers !! k = if signed_header k then headers !! k else None.
Proof.
  unfold _filter_headers.
  apply (map_fold_weak_ind (fun result (m : gmap string string) =>
           result !! k = if signed_header k then m !! k else None)).
  - rewrite lookup_empty. by destruct (signed_header k).
  - intros i x m result Hi IH.
    destruct (decide (i = k)) as [->|Hne].
    + destruct (signed_header k) eqn:Hk.
      * by rewrite !lookup_insert_eq.
      * rewrite IH. done.
    + destruct (signed_header i).
      * rewrite !lookup_insert_ne by done. done.
      * rewrite lookup_insert_ne by done. done.
Qed.

(** C4.  The header filter retains exactly the entries whose lower-cased
    name is in the allow-list or starts with [x-cos-]; [x-custom-foo] is
    dropped, [x-cos-meta-foo] and [content-type] are kept. *)
Theorem filter_headers_retains (headers : gmap string string) :
  (forall k v, _filter_headers headers !! k = Some v <->
               headers !! k = Some v /\ retained k)
  /\ _filter_headers headers !! "x-custom-foo" = None
  /\ _filter_headers headers !! "x-cos-meta-foo" = headers !! "x-cos-meta-foo"
  /\ _filter_headers headers !! "content-type" = headers !! "content-type".
Proof.
  split; [| by rewrite !filter_headers_lookup].
  intros k v. rewrite filter_headers_lookup, <- signed_header_retained.
  destruct (signed_header k); naive_solver.
Qed.

End header_filter.

(** ** Sorting *)

Section sorting.

#[local] Instance item_le_total : Total Py.item_le.
Proof.
  intros a b. unfold Py.item_le.
  destruct (decide (a.1 = b.1)) as [E|N].
  - rewrite decide_True by done. apply (total String.le).
  - rewrite decide_False by done. apply (total String.le).
Qed.

Lemma item_le_key (a b : string * string) : Py.item_le a b -> String.le a.1 b.1.
Proof.
  unfold Py.item_le. destruct (decide (a.1 = b.1)) as [->|]; [| done].
  by intros _.
Qed.

(** [sorted(d.items())] lists the items of [d] in the order of their keys,
    as they are given. *)
Lemma sorted_items_by_key (d : gmap string string) :
  Sorted String.le (Py.sorted_items d).*1
  /\ Py.sorted_items d ≡ₚ map_to_list d.
Proof.
  split; [| apply merge_sort_Permutation].
  unfold Py.sorted_items.
  assert (Sorted Py.item_le (merge_sort Py.item_le (map_to_list d))) as H
    by apply (Sorted_merge_sort _).
  induction H as [|a l _ IH Hd]; [constructor |].
  simpl. constructor; [done |].
  destruct Hd as [|b l Hab]; constructor. by apply item_le_key.
Qed.

End sorting.

(** ** The canonical strings *)

Section canonical_strings.

Import COSStorage.

Lemma not_sorted_dec (l : list string) :
  bool_decide (Sorted String.le l) = false -> ~ Sorted String.le l.
Proof. apply bool_decide_eq_false. Qed.

Lemma plain_char_fixed (c : ascii) :
  plain_char c = true ->
  Py.lower_char c = c /\ Urllib.quote_char "-_.~" c = String c EmptyString.
Proof.
  destruct c as [[] [] [] [] [] [] [] []]; intros H; vm_compute in H;
    first [discriminate H | split; reflexivity].
Qed.

Lemma plain_encoded_key (kv : string * string) :
  plain kv.1 = true -> encoded_key kv = kv.1.
Proof.
  unfold encoded_key. generalize kv.1 as s. clear kv.
  induction s as [|c s IH]; [done |]. simpl. intros [Hc Hs]%andb_true_iff.
  destruct (plain_char_fixed c Hc) as [-> ->]. by rewrite (IH Hs).
Qed.

(** On keys that lower-casing and encoding leave as they are, the canonical
    strings are in the order of the encoded keys. *)
Lemma canonical_order_plain_keys (d : gmap string string) :
  (forall k v, d !! k = Some v -> plain k = true) ->
  Sorted String.le (encoded_key <$> Py.sorted_items d).
Proof.
  intros Hplain. destruct (sorted_items_by_key d) as [Hsorted Hperm].
  replace (encoded_key <$> Py.sorted_items d) with (Py.sorted_items d).*1; [done |].
  apply list_fmap_ext. intros i [k v] Hi. symmetry. apply plain_encoded_key.
  apply (Hplain k v), elem_of_map_to_list. rewrite <- Hperm.
  by apply list_elem_of_lookup_2 in Hi.
Qed.

(** C1.  On keys of mixed case the canonical strings are not in the order
    of their lower-cased (encoded) keys: the pairs are sorted by the keys
    as given, and lower-cased afterwards.  For the metadata keys [B] and
    [a], [upload_file] signs the headers in the order
    [x-cos-meta-b], [x-cos-meta-a], and announces them in [q-header-list]
    in the order [x-cos-meta-a], [x-cos-meta-b]; the same happens to
    parameters. *)
Theorem canonical_order_mixed_case :
  header_str (_filter_headers Sample.mixed_headers)
    = "content-length=0&host=b1.cos.ap-guangzhou.myqcloud.com&x-cos-meta-b=1&x-cos-meta-a=2"
  /\ ~ Sorted String.le
         (encoded_key <$> Py.sorted_items (_filter_headers Sample.mixed_headers))
  /\ Py.sorted (Py.lower <$> Py.keys (_filter_headers Sample.mixed_headers))
     = ["content-length"; "host"; "x-cos-meta-a"; "x-cos-meta-b"]
  /\ param_str Sample.mixed_metadata = "b=1&a=2"
  /\ ~ Sorted String.le (encoded_key <$> Py.sorted_items Sample.mixed_metadata)
  /\ Py.sorted (Py.lower <$> Py.keys Sample.mixed_metadata) = ["a"; "b"]
  /\ exists rq auth,
       (call (Sample.always (Httpx.RequestError EmptyString))
          (upload_file Sample.config Sample.mixed_file None)).2 = [rq]
       /\ Httpx.headers rq = <["authorization" := auth]> Sample.mixed_headers
       /\ auth = auth_string "AKID" "secret" "PUT" "/a.txt" ∅
                   (_filter_headers Sample.mixed_headers) 1700000000 10000.
Proof.
  split; [vm_compute; reflexivity |].
  split; [apply not_sorted_dec; vm_compute; reflexivity |].
  split; [vm_compute; reflexivity |].
  split; [vm_compute; reflexivity |].
  split; [apply not_sorted_dec; vm_compute; reflexivity |].
  split; [vm_compute; reflexivity |].
  set (auth := auth_string "AKID" "secret" "PUT" "/a.txt" ∅
                 (_filter_headers Sample.mixed_headers) 1700000000 10000).
  exists (Httpx.Request "PUT" ("https://" +:+ Sample.host +:+ "/a.txt")
            (<["authorization" := auth]> Sample.mixed_headers) EmptyString), auth.
  split; [vm_compute; reflexivity | done].
Qed.

End canonical_strings.

(** ** Digests *)

Section digests.

Import Hashlib.







(** The digests of the standard test vectors. *)
Example sha1_abc :
  sha1_hexdigest "abc" = "a9993e364706816aba3e25717850c26c9cd0d89d".
Proof. vm_compute; reflexivity. Qed.

Example sha1_two_blocks :
  sha1_hexdigest "abcdbcdecdefdefgefghfghighijhijkijkljklmklmnlmnomnopnopq"
  = "84983e441c3bd26ebaae4aa1f95129e5e54670f1".
Proof. vm_compute; reflexivity. Qed.

Example hmac_rfc2202 :
  hmac_sha1_hexdigest "Jefe" "what do ya want for nothing?"
  = "effcdf6ae5eb2fa2d27416d5f184df9c259a7c79".
Proof. vm_compute; reflexivity. Qed.

End digests.

(** ** The signer *)

Section signer.

Import COSStorage.

Implicit Types (config : StorageConfig.t) (params headers : option (gmap string string)).

Lemma sign_ok config id key method path params headers expire :
  configured (StorageConfig.access_key_id config) id ->
  configured (StorageConfig.access_key_secret config) key ->
  _sign config method path params headers expire =
  Clock (fun now => Ret (auth_string id key method path (default ∅ params)
                           (_filter_headers (default ∅ headers)) now expire)).
Proof.
  intros Hid Hkey. unfold _sign.
  rewrite !(proj2 (truthy_configured _)) by eauto.
  by rewrite (truthy_default _ _ Hid), (truthy_default _ _ Hkey).
Qed.

Lemma sign_fails config method path params headers expire :
  unusable (StorageConfig.access_key_id config)
  \/ unusable (StorageConfig.access_key_secret config) ->
  _sign config method path params headers expire
  = Raise (StorageBackendError "缺少访问密钥").
Proof.
  intros H. unfold _sign.
  destruct H as [H|H]; apply truthy_unusable in H; rewrite H; [done |].
  by rewrite orb_true_r.
Qed.

Lemma credentials_cases config :
  (exists id key, configured (StorageConfig.access_key_id config) id
                  /\ configured (StorageConfig.access_key_secret config) key)
  \/ (unusable (StorageConfig.access_key_id config)
      \/ unusable (StorageConfig.access_key_secret config)).
Proof.
  destruct (Py.truthy (StorageConfig.access_key_id config)) eqn:H1.
  - destruct (Py.truthy (StorageConfig.access_key_secret config)) eqn:H2.
    + apply truthy_configured in H1 as [id Hid].
      apply truthy_configured in H2 as [key Hkey]. left. eauto.
    + apply truthy_unusable in H2. auto.
  - apply truthy_unusable in H1. auto.
Qed.

(** The value [_sign] builds is its seven fields joined by [&]. *)
Lemma auth_string_fields id key method path (ps hs : gmap string string) now expire :
  auth_string id key method path ps hs now expire =
  Py.join "&"
    [ "q-sign-algorithm=sha1";
      "q-ak=" +:+ id;
      "q-sign-time=" +:+ sign_time now expire;
      "q-key-time=" +:+ sign_time now expire;
      "q-header-list=" +:+ Py.join ";" (Py.sorted (Py.lower <$> Py.keys hs));
      "q-url-param-list=" +:+ Py.join ";" (Py.sorted (Py.lower <$> Py.keys ps));
      "q-signature=" +:+
        signature key (sign_time now expire) (http_string method path ps hs) ].
Proof.
  unfold auth_string, Py.join. by rewrite !string_app_assoc.
Qed.




End signer.

(** ** Running the operations *)

Section running.

Import COSStorage.

Context {A B : Type}.

Lemma bind_Ret (a : A) (f : A -> prog B) : (Ret a ≫= f) = f a.
Proof. done. Qed.

Lemma bind_Raise (x : exn) (f : A -> prog B) : (Raise x ≫= f) = Raise x.
Proof. done. Qed.

Lemma bind_Clock (k : Z -> prog A) (f : A -> prog B) :
  (Clock k ≫= f) = Clock (fun t => k t ≫= f).
Proof. done. Qed.

Lemma bind_Http rq (k : Httpx.reply -> prog A) (f : A -> prog B) :
  (Http rq k ≫= f) = Http rq (fun r => k r ≫= f).
Proof. done. Qed.

Lemma run_Ret (e : env) (a : A) reads sent : run e (Ret a) reads sent = (inr a, sent).
Proof. done. Qed.

Lemma run_Raise (e : env) (x : exn) reads sent :
  run e (Raise x : prog A) reads sent = (inl x, sent).
Proof. done. Qed.

Lemma run_Clock (e : env) (k : Z -> prog A) reads sent :
  run e (Clock k) reads sent = run e (k (clock e reads)) (S reads) sent.
Proof. done. Qed.

Lemma run_Http (e : env) rq (k : Httpx.reply -> prog A) reads sent :
  run e (Http rq k) reads sent = run e (k (network e sent rq)) reads (sent ++ [rq]).
Proof. done. Qed.

End running.

Ltac run_step :=
  cbv beta iota zeta;
  first
    [ rewrite bind_Ret | rewrite bind_Raise | rewrite bind_Clock | rewrite bind_Http
    | rewrite run_Ret | rewrite run_Raise | rewrite run_Clock | rewrite run_Http ];
  cbv beta zeta.

(** Unfolds an operation up to its request, for a configuration that
    [resolves]. *)
Ltac run_resolved H :=
  rewrite ?(resolves_bucket _ _ _ _ _ _ H);
  repeat run_step;
  rewrite ?(resolves_host _ _ _ _ _ _ H);
  repeat run_step;
  rewrite ?(sign_ok _ _ _ _ _ _ _ _ (resolves_id _ _ _ _ _ _ H) (resolves_key _ _ _ _ _ _ H));
  unfold send;
  repeat run_step;
  simpl (default _ (Some _)).

Section operations.

Import COSStorage.

Implicit Types (config : StorageConfig.t) (e : env).

Lemma path_of_eq object_name :
  (if negb (Py.startswith object_name "/") then "/" +:+ object_name
   else object_name) = path_of object_name.
Proof. unfold path_of. by destruct (Py.startswith object_name "/"). Qed.

Lemma delete_file_run e config object_name bucket_name b h id key reads sent :
  resolves config bucket_name b h id key ->
  let rq := signed_request id key "DELETE" (object_url h (path_of object_name))
              (path_of object_name) ∅ (base_headers config h) EmptyString
              (clock e reads) in
  run e (delete_file config object_name bucket_name) reads sent =
  (match network e sent rq with
   | Httpx.RequestError m => inl (StorageBackendError ("COS 请求失败: " +:+ m))
   | Httpx.Raised name => inl (ClientException name)
   | Httpx.Responded r =>
       if negb (bool_decide (Httpx.status_code r ∈ [200; 204; 404]))
          && negb (Httpx.is_success r)
       then inl (StorageBackendError
                   ("COS 删除失败: " +:+ Py.str (Httpx.status_code r)
                      +:+ " " +:+ Httpx.text r))
       else inr tt
   end, sent ++ [rq]).
Proof.
  intros H rq. unfold delete_file. run_resolved H.
  rewrite path_of_eq. fold (base_headers config h).
  change (Httpx.Request _ _ _ _) with rq.
  destruct (network e sent rq) as [r|m|name]; [| done | done].
  by destruct (_ && _).
Qed.


Lemma file_exists_run e config object_name bucket_name b h id key reads sent :
  resolves config bucket_name b h id key ->
  let rq := signed_request id key "HEAD" (object_url h (path_of object_name))
              (path_of object_name) ∅ (base_headers config h) EmptyString
              (clock e reads) in
  run e (file_exists config object_name bucket_name) reads sent =
  (match network e sent rq with
   | Httpx.RequestError _ => inr false
   | Httpx.Raised name => inl (ClientException name)
   | Httpx.Responded r => inr (Httpx.status_code r =? 200)
   end, sent ++ [rq]).
Proof.
  intros H rq. unfold file_exists. run_resolved H.
  rewrite path_of_eq. fold (base_headers config h).
  change (Httpx.Request _ _ _ _) with rq.
  by destruct (network e sent rq).
Qed.

Lemma download_file_run e config object_name bucket_name b h id key reads sent :
  resolves config bucket_name b h id key ->
  let rq := signed_request id key "GET" (object_url h (path_of object_name))
              (path_of object_name) ∅ (base_headers config h) EmptyString
              (clock e reads) in
  run e (download_file config object_name bucket_name) reads sent =
  (match network e sent rq with
   | Httpx.RequestError m => inl (StorageBackendError ("COS 请求失败: " +:+ m))
   | Httpx.Raised name => inl (ClientException name)
   | Httpx.Responded r =>
       if Httpx.status_code r =? 404 then
         inl (StorageNotFoundError ("文件不存在: " +:+ object_name))
       else if Httpx.is_success r then inr (Httpx.resp_content r)
       else inl (StorageBackendError
                   ("COS 下载失败: " +:+ Py.str (Httpx.status_code r)
                      +:+ " " +:+ Httpx.text r))
   end, sent ++ [rq]).
Proof.
  intros H rq. unfold download_file. run_resolved H.
  rewrite path_of_eq. fold (base_headers config h).
  change (Httpx.Request _ _ _ _) with rq.
  destruct (network e sent rq) as [r|m|name]; [| done | done].
  destruct (Httpx.status_code r =? 404); [done |].
  by destruct (Httpx.is_success r).
Qed.

Lemma probe_run e config b h id key object_name reads sent :
  _get_host config b = Ret h ->
  configured (StorageConfig.access_key_id config) id ->
  configured (StorageConfig.access_key_secret config) key ->
  let rq := signed_request id key "HEAD" (object_url h (path_of object_name))
              (path_of object_name) ∅ (base_headers config h) EmptyString
              (clock e reads) in
  forall B (f : Z -> prog B),
    run e (_get_file_size config b object_name ≫= f) reads sent =
    match probe (network e sent rq) with
    | inl x => (inl x, sent ++ [rq])
    | inr size => run e (f size) (S reads) (sent ++ [rq])
    end.
Proof.
  intros Hh Hid Hkey rq B f. unfold _get_file_size.
  rewrite Hh. repeat run_step. rewrite (sign_ok _ _ _ _ _ _ _ _ Hid Hkey).
  unfold send. repeat run_step. simpl (default _ (Some _)).
  rewrite path_of_eq. fold (base_headers config h).
  change (Httpx.Request _ _ _ _) with rq.
  destruct (network e sent rq) as [r|m|name]; simpl probe;
    [| by run_step | by run_step].
  destruct (Httpx.status_code r =? 200); [| by run_step].
  destruct (Httpx.get r "content-length") as [s|]; simpl Py.truthy; [| by run_step].
  destruct (String.eqb s EmptyString); simpl negb; [by run_step |].
  simpl (default _ (Some _)).
  destruct (Py.int s); by repeat run_step.
Qed.

Lemma append_file_at e config object_name data bucket_name b h id key
    (position : Z) reads sent :
  resolves config bucket_name b h id key ->
  let rq := signed_request id key "POST"
              (object_url h (path_of object_name)
                 +:+ "?append=&position=" +:+ Py.str position)
              (path_of object_name) (append_params position)
              (body_headers config h (Py.len data)) data (clock e reads) in
  run e (append_file config object_name data bucket_name (Some position)) reads sent =
  (match network e sent rq with
   | Httpx.RequestError m => inl (StorageBackendError ("COS 请求失败: " +:+ m))
   | Httpx.Raised name => inl (ClientException name)
   | Httpx.Responded r =>
       if Httpx.is_success r then
         match Httpx.get r "x-cos-next-append-position" with
         | None => inr (position + Py.len data)
         | Some s =>
             if String.eqb s EmptyString then inr (position + Py.len data)
             else match Py.int s with
                  | Some n => inr n
                  | None => inl (ValueError s)
                  end
         end
       else inl (StorageBackendError
                   ("COS 追加失败: " +:+ Py.str (Httpx.status_code r)
                      +:+ " " +:+ Httpx.text r))
   end, sent ++ [rq]).
Proof.
  intros H rq. unfold append_file. run_resolved H.
  rewrite path_of_eq. fold (append_params position).
  fold (body_headers config h (Py.len data)).
  replace ("https://" +:+ h +:+ Urllib.quote (path_of object_name) "/-_.~"
             +:+ "?append=&position=" +:+ Py.str position)
    with (object_url h (path_of object_name)
            +:+ "?append=&position=" +:+ Py.str position)
    by (unfold object_url; by rewrite !string_app_assoc).
  change (Httpx.Request _ _ _ _) with rq.
  destruct (network e sent rq) as [r|m|name]; [| done | done].
  destruct (Httpx.is_success r); [| done]. simpl negb. cbv iota.
  destruct (Httpx.get r "x-cos-next-append-position") as [s|]; [| done].
  simpl Py.truthy. destruct (String.eqb s EmptyString); [done |].
  simpl negb. cbv iota. simpl (default _ (Some _)). by destruct (Py.int s).
Qed.

Lemma append_file_probing e config object_name data bucket_name b h id key reads sent :
  resolves config bucket_name b h id key ->
  let rq := signed_request id key "HEAD" (object_url h (path_of object_name))
              (path_of object_name) ∅ (base_headers config h) EmptyString
              (clock e reads) in
  run e (append_file config object_name data bucket_name None) reads sent =
  match probe (network e sent rq) with
  | inl x => (inl x, sent ++ [rq])
  | inr size =>
      run e (append_file config object_name data bucket_name (Some size))
        (S reads) (sent ++ [rq])
  end.
Proof.
  intros H rq. unfold append_file at 1.
  rewrite (resolves_bucket _ _ _ _ _ _ H). run_step.
  rewrite (probe_run e config b h id key object_name reads sent
             (resolves_host _ _ _ _ _ _ H) (resolves_id _ _ _ _ _ _ H)
             (resolves_key _ _ _ _ _ _ H)).
  fold rq. destruct (probe (network e sent rq)) as [x|size]; [done |].
  unfold append_file. rewrite (resolves_bucket _ _ _ _ _ _ H).
  by repeat run_step.
Qed.

Lemma presigned_url_run e config b h id key object_name method expires_in reads sent :
  _get_host config b = Ret h ->
  configured (StorageConfig.access_key_id config) id ->
  configured (StorageConfig.access_key_secret config) key ->
  run e (_get_presigned_url config b object_name method expires_in) reads sent =
  (inr (object_url h (path_of object_name) +:+ "?"
          +:+ auth_string id key method (path_of object_name) ∅
                (_filter_headers {[ "host" := h ]}) (clock e reads) expires_in),
   sent).
Proof.
  intros Hh Hid Hkey. unfold _get_presigned_url.
  rewrite Hh. repeat run_step. rewrite (sign_ok _ _ _ _ _ _ _ _ Hid Hkey).
  repeat run_step. simpl (default _ (Some _)).
  rewrite path_of_eq. unfold object_url. by rewrite !string_app_assoc.
Qed.

Lemma upload_file_run e config file bucket_name b h id key reads sent :
  resolves config (Py.or_else bucket_name (StorageFile.bucket_name file)) b h id key ->
  let object_name := StorageFile.object_name file in
  let rq := signed_request id key "PUT" (object_url h (path_of object_name))
              (path_of object_name) ∅ (upload_headers config file h)
              (_read_file_data file) (clock e reads) in
  run e (upload_file config file bucket_name) reads sent =
  (match network e sent rq with
   | Httpx.RequestError m => inl (StorageBackendError ("COS 请求失败: " +:+ m))
   | Httpx.Raised name => inl (ClientException name)
   | Httpx.Responded r =>
       if Httpx.is_success r then
         let etag :=
           Py.strip (default EmptyString (Httpx.get r "etag")) Py.dquote in
         inr (UploadResult.Build
                ("https://" +:+ h +:+ "/" +:+ Urllib.quote object_name "/-_.~")
                b object_name (if Py.truthy (Some etag) then Some etag else None))
       else inl (StorageBackendError
                   ("COS 上传失败: " +:+ Py.str (Httpx.status_code r)
                      +:+ " " +:+ Httpx.text r))
   end, sent ++ [rq]).
Proof.
  intros H object_name rq. unfold upload_file. run_resolved H.
  rewrite path_of_eq. fold (upload_headers config file h). fold object_name.
  change (Httpx.Request _ _ _ _) with rq.
  destruct (network e sent rq) as [r|m|name]; [| done | done].
  destruct (Httpx.is_success r); [| done]. simpl negb. cbv iota.
  unfold _build_url. rewrite (resolves_host _ _ _ _ _ _ H). by repeat run_step.
Qed.

End operations.

(** ** Append *)

Section append.

Import COSStorage.

Implicit Types (config : StorageConfig.t) (e : env).



Lemma append_params_items (v : string) :
  Py.sorted_items (<["position" := v]> {[ "append" := EmptyString ]})
  = [("append", EmptyString); ("position", v)].
Proof. vm_compute; reflexivity. Qed.





Lemma sample_resolves :
  resolves Sample.config None "b1" Sample.host "AKID" "secret".
Proof. split; [reflexivity | reflexivity | by split | by split]. Defined.



End append.

(** ** Responses *)

Section responses.

Import COSStorage.

Implicit Types (config : StorageConfig.t) (e : env).

Lemma success_not_404 (r : Httpx.response) :
  Httpx.is_success r = true -> Httpx.status_code r <> 404.
Proof. unfold Httpx.is_success. lia. Qed.

(** C7.  A download returns the body of a successful response; the status
    404 raises [StorageNotFoundError]; every other status that is not a
    success, and a transport failure, raise [StorageBackendError], which
    is another kind of error. *)
Theorem download_file_outcomes e config object_name bucket_name
    b h id key reads sent :
  let out := run e (download_file config object_name bucket_name) reads sent in
  resolves config bucket_name b h id key ->
  exists rq,
    out.2 = sent ++ [rq]
    /\ Httpx.method rq = "GET"
    /\ (forall r, network e sent rq = Httpx.Responded r ->
          (Httpx.is_success r = true -> out.1 = inr (Httpx.resp_content r))
          /\ (Httpx.status_code r = 404 ->
              exists msg, out.1 = inl (StorageNotFoundError msg))
          /\ (Httpx.is_success r = false -> Httpx.status_code r <> 404 ->
              exists msg, out.1 = inl (StorageBackendError msg)))
    /\ (forall m, network e sent rq = Httpx.RequestError m ->
          exists msg, out.1 = inl (StorageBackendError msg))
    /\ (forall m m', kind_of (StorageNotFoundError m) <> kind_of (StorageBackendError m')).
Proof.
  intros out H. unfold out. rewrite (download_file_run _ _ _ _ _ _ _ _ _ _ H).
  eexists. split; [done |]. split; [done |].
  split; [| split; [| done]].
  - intros r ->. simpl. split; [| split].
    + intros Hok. rewrite (proj2 (Z.eqb_neq _ _) (success_not_404 _ Hok)).
      by rewrite Hok.
    + intros ->. simpl. eauto.
    + intros Hno Hne. rewrite (proj2 (Z.eqb_neq _ _) Hne), Hno. eauto.
  - intros m ->. simpl. eauto.
Qed.

(** The theorem at a download the server answers with 404. *)
Lemma download_file_outcomes_witness :
  resolves Sample.config None "b1" Sample.host "AKID" "secret"
  /\ exists msg,
       (call (Sample.always (Httpx.Responded (Sample.response 404 ∅ EmptyString)))
          (download_file Sample.config "a.txt" None)).1
     = inl (StorageNotFoundError msg).
Proof.
  split; [exact sample_resolves |].
  destruct (download_file_outcomes
              (Sample.always (Httpx.Responded (Sample.response 404 ∅ EmptyString)))
              Sample.config "a.txt" None "b1" Sample.host "AKID" "secret" O []
              sample_resolves) as (rq & _ & _ & Hr & _).
  destruct (Hr (Sample.response 404 ∅ EmptyString) eq_refl) as (_ & H404 & _).
  exact (H404 eq_refl).
Defined.

(** C8, as far as it holds.  A delete returns without error for the
    statuses 200, 204 and 404 and for every other status that is a success
    (2xx); it raises [StorageBackendError] for every remaining status and
    for a transport failure. *)
Theorem delete_file_outcomes e config object_name bucket_name
    b h id key reads sent :
  let out := run e (delete_file config object_name bucket_name) reads sent in
  resolves config bucket_name b h id key ->
  exists rq,
    out.2 = sent ++ [rq]
    /\ Httpx.method rq = "DELETE"
    /\ (forall r, network e sent rq = Httpx.Responded r ->
          (Httpx.status_code r ∈ [200; 204; 404] -> out.1 = inr tt)
          /\ (Httpx.is_success r = true -> out.1 = inr tt)
          /\ (Httpx.status_code r ∉ [200; 204; 404] ->
              Httpx.is_success r = false ->
              exists msg, out.1 = inl (StorageBackendError msg)))
    /\ (forall m, network e sent rq = Httpx.RequestError m ->
          exists msg, out.1 = inl (StorageBackendError msg)).
Proof.
  intros out H. unfold out. rewrite (delete_file_run _ _ _ _ _ _ _ _ _ _ H).
  eexists. split; [done |]. split; [done |]. split.
  - intros r ->. simpl. split; [| split].
    + intros Hin. by rewrite (bool_decide_eq_true_2 _ Hin).
    + intros ->. by rewrite andb_false_r.
    + intros Hout ->. rewrite (bool_decide_eq_false_2 _ Hout). simpl. eauto.
  - intros m ->. simpl. eauto.
Qed.

(** The theorem at a delete of a key the server does not have. *)
Lemma delete_file_outcomes_witness :
  resolves Sample.config None "b1" Sample.host "AKID" "secret"
  /\ (call (Sample.always (Httpx.Responded (Sample.response 404 ∅ EmptyString)))
        (delete_file Sample.config "a.txt" None)).1 = inr tt.
Proof.
  split; [exact sample_resolves |].
  destruct (delete_file_outcomes
              (Sample.always (Httpx.Responded (Sample.response 404 ∅ EmptyString)))
              Sample.config "a.txt" None "b1" Sample.host "AKID" "secret" O []
              sample_resolves) as (rq & _ & _ & Hr & _).
  destruct (Hr (Sample.response 404 ∅ EmptyString) eq_refl) as (Hin & _).
  apply Hin. vm_compute. do 2 right. left.
Defined.

(** C8 as stated fails: the status 201 is none of 200, 204 and 404, and a
    delete answered with it returns without error. *)
Lemma delete_file_status_201 :
  (201 ∉ [200; 204; 404])
  /\ (call (Sample.always (Httpx.Responded (Sample.response 201 ∅ EmptyString)))
        (delete_file Sample.config "a.txt" None)).1 = inr tt.
Proof.
  split; [| vm_compute; reflexivity].
  rewrite !elem_of_cons, elem_of_nil. lia.
Qed.

(** C9.  [file_exists] answers [True] exactly when the [HEAD] gets a
    response with the status 200; for every other status and for a
    transport failure ([httpx.RequestError]) it answers [False] and does
    not raise.  It raises only what the client raises besides, which it
    does not catch. *)
Theorem file_exists_outcomes e config object_name bucket_name
    b h id key reads sent :
  let out := run e (file_exists config object_name bucket_name) reads sent in
  resolves config bucket_name b h id key ->
  exists rq,
    out.2 = sent ++ [rq]
    /\ Httpx.method rq = "HEAD"
    /\ (out.1 = inr true <->
        exists r, network e sent rq = Httpx.Responded r /\ Httpx.status_code r = 200)
    /\ (forall r, network e sent rq = Httpx.Responded r ->
          Httpx.status_code r <> 200 -> out.1 = inr false)
    /\ (forall m, network e sent rq = Httpx.RequestError m -> out.1 = inr false)
    /\ (forall x, out.1 = inl x ->
          exists name, network e sent rq = Httpx.Raised name
                       /\ x = ClientException name).
Proof.
  intros out H. unfold out. rewrite (file_exists_run _ _ _ _ _ _ _ _ _ _ H).
  match goal with |- context [network e sent ?rq0] =>
    exists rq0; destruct (network e sent rq0) as [r|m|name] eqn:Hnet end;
    simpl; (split; [done |]); (split; [done |]).
  - split; [| split; [| split]]; [| | done | done].
    + split.
      * intros [= E]. exists r. split; [done |]. by apply Z.eqb_eq.
      * intros (r' & [= <-] & E). by rewrite (proj2 (Z.eqb_eq _ _) E).
    + intros r' [= <-] E. by rewrite (proj2 (Z.eqb_neq _ _) E).
  - split; [| split; [| split]]; [| done | done | done].
    split; [done |]. by intros (r & ? & _).
  - split; [| split; [| split]]; [| done | done |].
    + split; [done |]. by intros (r & ? & _).
    + intros x [= <-]. by exists name.
Qed.

(** The theorem at a host that cannot be reached. *)
Lemma file_exists_outcomes_witness :
  resolves Sample.config None "b1" Sample.host "AKID" "secret"
  /\ (call (Sample.always (Httpx.RequestError "unreachable"))
        (file_exists Sample.config "a.txt" None)).1 = inr false.
Proof.
  split; [exact sample_resolves |].
  destruct (file_exists_outcomes
              (Sample.always (Httpx.RequestError "unreachable"))
              Sample.config "a.txt" None "b1" Sample.host "AKID" "secret" O []
              sample_resolves) as (rq & _ & _ & _ & _ & Hfail & _).
  exact (Hfail "unreachable" eq_refl).
Defined.

End responses.

(** ** Object paths *)

Section object_paths.

Import COSStorage.

Implicit Types (config : StorageConfig.t) (e : env).

Lemma path_of_slash object_name :
  (exists rest, object_name = "/" +:+ rest) -> path_of object_name = object_name.
Proof.
  intros H. unfold path_of. by rewrite (proj2 (startswith_spec _ _) H).
Qed.

Lemma path_of_no_slash object_name :
  (forall rest, object_name <> "/" +:+ rest) ->
  path_of object_name = "/" +:+ object_name.
Proof.
  intros H. unfold path_of.
  destruct (Py.startswith object_name "/") eqn:E; [| done].
  apply startswith_spec in E as [rest ->]. by destruct (H rest).
Qed.

Lemma path_of_doubled object_name :
  doubled_slash (path_of object_name) <-> doubled_slash object_name.
Proof.
  unfold path_of. destruct (Py.startswith object_name "/") eqn:E; [done |].
  assert (forall rest, object_name <> "/" +:+ rest) as N.
  { intros rest ->. by rewrite (proj2 (startswith_spec _ _)) in E; [| exists rest]. }
  split; intros [rest Hr].
  - injection Hr as ->. by destruct (N rest).
  - subst. by destruct (N ("/" +:+ rest)).
Qed.

(** C10, as far as it holds.  The path of a request is the key itself when
    the key starts with a slash, and the key behind a slash otherwise, so
    it starts with two slashes only when the key does.  Every operation
    signs its request over this path and sends it to the URL of the host
    followed by the percent-encoded path (and the query, for an append);
    a presigned URL is made of the same two. *)
Theorem object_path_in_requests e config object_name bucket_name
    b h id key reads sent :
  let path := path_of object_name in
  let request method := signed_request id key method (object_url h path) path ∅
                          (base_headers config h) EmptyString (clock e reads) in
  resolves config bucket_name b h id key ->
  ((exists rest, object_name = "/" +:+ rest) -> path = object_name)
  /\ ((forall rest, object_name <> "/" +:+ rest) -> path = "/" +:+ object_name)
  /\ (doubled_slash path <-> doubled_slash object_name)
  /\ (run e (download_file config object_name bucket_name) reads sent).2
     = sent ++ [request "GET"]
  /\ (run e (delete_file config object_name bucket_name) reads sent).2
     = sent ++ [request "DELETE"]
  /\ (run e (file_exists config object_name bucket_name) reads sent).2
     = sent ++ [request "HEAD"]
  /\ (forall data position,
        (run e (append_file config object_name data bucket_name (Some position))
           reads sent).2
        = sent ++ [signed_request id key "POST"
                     (object_url h path +:+ "?append=&position=" +:+ Py.str position)
                     path (append_params position)
                     (body_headers config h (Py.len data)) data (clock e reads)])
  /\ (forall data, exists rest,
        (run e (append_file config object_name data bucket_name None) reads sent).2
        = sent ++ request "HEAD" :: rest)
  /\ (forall file bucket_name',
        StorageFile.object_name file = object_name ->
        resolves config (Py.or_else bucket_name' (StorageFile.bucket_name file))
          b h id key ->
        (run e (upload_file config file bucket_name') reads sent).2
        = sent ++ [signed_request id key "PUT" (object_url h path) path ∅
                     (upload_headers config file h) (_read_file_data file)
                     (clock e reads)])
  /\ (forall method expires_in,
        run e (_get_presigned_url config b object_name method expires_in) reads sent
        = (inr (object_url h path +:+ "?"
                  +:+ auth_string id key method path ∅
                        (_filter_headers {[ "host" := h ]}) (clock e reads) expires_in),
           sent)).
Proof.
  intros path request H.
  split; [apply path_of_slash |]. split; [apply path_of_no_slash |].
  split; [apply path_of_doubled |].
  split; [by rewrite (download_file_run _ _ _ _ _ _ _ _ _ _ H) |].
  split; [by rewrite (delete_file_run _ _ _ _ _ _ _ _ _ _ H) |].
  split; [by rewrite (file_exists_run _ _ _ _ _ _ _ _ _ _ H) |].
  split; [intros data position;
          by rewrite (append_file_at _ _ _ _ _ _ _ _ _ _ _ _ H) |].
  split.
  { intros data. rewrite (append_file_probing _ _ _ _ _ _ _ _ _ _ _ H).
    fold path. fold (request "HEAD").
    destruct (probe _) as [x|size]; [by exists [] |].
    rewrite (append_file_at _ _ _ _ _ _ _ _ _ _ _ _ H). simpl.
    eexists [_]. by rewrite <- (assoc_L (++)). }
  split.
  { intros file bucket_name' <- H'.
    by rewrite (upload_file_run _ _ _ _ _ _ _ _ _ _ H'). }
  intros method expires_in.
  apply presigned_url_run; apply H.
Qed.

(** The theorem at a download of the key [/a.txt]. *)
Lemma object_path_in_requests_witness :
  resolves Sample.config None "b1" Sample.host "AKID" "secret"
  /\ Httpx.url <$> (call (Sample.always (Httpx.RequestError EmptyString))
                      (download_file Sample.config "/a.txt" None)).2
     = ["https://b1.cos.ap-guangzhou.myqcloud.com/a.txt"].
Proof.
  split; [exact sample_resolves |].
  destruct (object_path_in_requests
              (Sample.always (Httpx.RequestError EmptyString))
              Sample.config "/a.txt" None "b1" Sample.host "AKID" "secret" O []
              sample_resolves) as (_ & _ & _ & Hget & _).
  unfold call. rewrite Hget. reflexivity.
Defined.

(** C10 as stated fails: a key that starts with two slashes is its own
    path, which then carries the doubled slash into the URL and into the
    signed string. *)
Lemma doubled_slash_key_kept :
  doubled_slash (path_of "//a.txt")
  /\ (call (Sample.always (Httpx.RequestError EmptyString))
        (delete_file Sample.config "//a.txt" None)).2
     = [signed_request "AKID" "secret" "DELETE"
          "https://b1.cos.ap-guangzhou.myqcloud.com//a.txt" "//a.txt" ∅
          {[ "host" := Sample.host ]} EmptyString 1700000000].
Proof.
  split; [by exists "a.txt" |]. vm_compute; reflexivity.
Qed.

End object_paths.

(** ** Configuration errors *)

Section configuration_errors.

Import COSStorage.

Implicit Types (config : StorageConfig.t) (e : env).

Lemma raise_fails {A : Type} (p : prog A) msg :
  p = Raise (StorageBackendError msg) -> fails_before_io p.
Proof. intros ->. by exists msg. Qed.

Lemma get_bucket_fails config bucket_name :
  no_bucket config bucket_name ->
  _get_bucket config bucket_name = Raise (StorageBackendError "桶名未指定").
Proof.
  intros [H1 H2]. unfold _get_bucket, Py.or_else.
  apply truthy_unusable in H1, H2. by rewrite H1, H2.
Qed.

Lemma get_bucket_cases config bucket_name :
  (exists b, _get_bucket config bucket_name = Ret b)
  \/ _get_bucket config bucket_name = Raise (StorageBackendError "桶名未指定").
Proof. unfold _get_bucket. destruct (Py.truthy _); simpl; eauto. Qed.

Lemma get_host_cases config b :
  (exists h, _get_host config b = Ret h)
  \/ exists msg, _get_host config b = Raise (StorageBackendError msg).
Proof.
  unfold _get_host. destruct (Py.truthy (StorageConfig.endpoint config)).
  - destruct (Py.contains _ _); eauto.
  - destruct (Py.truthy (StorageConfig.region config)); simpl; eauto.
Qed.

Lemma or_else_unusable (a b : option string) :
  unusable a -> unusable b -> unusable (Py.or_else a b).
Proof. intros Ha Hb. unfold Py.or_else. by rewrite (proj2 (truthy_unusable _) Ha). Qed.

(** Goes through the preamble of an operation that cannot sign: the
    bucket, the host, then [_sign], the first of which to fail ends it. *)
Ltac preamble_fails config bucket_name Hcred :=
  destruct (get_bucket_cases config bucket_name) as [[b Hb]|Hb];
  rewrite Hb; [| by eexists];
  rewrite bind_Ret; cbv beta zeta;
  unfold _get_file_size, _get_presigned_url;
  destruct (get_host_cases config b) as [[h Hh]|[msg Hh]];
  rewrite Hh; [| by eexists];
  rewrite ?bind_Ret; cbv beta zeta;
  rewrite (sign_fails _ _ _ _ _ _ Hcred); by eexists.

Lemma upload_file_unsigned config file bucket_name :
  no_credentials config ->
  exists msg, upload_file config file bucket_name = Raise (StorageBackendError msg).
Proof.
  intros Hcred. unfold upload_file.
  preamble_fails config (Py.or_else bucket_name (StorageFile.bucket_name file)) Hcred.
Qed.

Lemma download_file_unsigned config object_name bucket_name :
  no_credentials config ->
  exists msg, download_file config object_name bucket_name
              = Raise (StorageBackendError msg).
Proof. intros Hcred. unfold download_file. preamble_fails config bucket_name Hcred. Qed.

Lemma delete_file_unsigned config object_name bucket_name :
  no_credentials config ->
  exists msg, delete_file config object_name bucket_name
              = Raise (StorageBackendError msg).
Proof. intros Hcred. unfold delete_file. preamble_fails config bucket_name Hcred. Qed.

Lemma file_exists_unsigned config object_name bucket_name :
  no_credentials config ->
  exists msg, file_exists config object_name bucket_name
              = Raise (StorageBackendError msg).
Proof. intros Hcred. unfold file_exists. preamble_fails config bucket_name Hcred. Qed.

Lemma append_file_unsigned config object_name data bucket_name position :
  no_credentials config ->
  exists msg, append_file config object_name data bucket_name position
              = Raise (StorageBackendError msg).
Proof.
  intros Hcred. unfold append_file.
  destruct position as [position|]; preamble_fails config bucket_name Hcred.
Qed.

Lemma presigned_url_unsigned config object_name bucket_name expires_in :
  expires_in <> 0 ->
  no_credentials config ->
  exists msg, get_file_url config object_name bucket_name (Some expires_in)
              = Raise (StorageBackendError msg).
Proof.
  intros Hne Hcred. unfold get_file_url.
  rewrite (proj2 (Z.eqb_neq _ _) Hne). simpl negb. cbv iota.
  preamble_fails config bucket_name Hcred.
Qed.

(** C5, as far as it holds.  An operation that signs (upload, download,
    delete, exists, append, a URL with an expiry) raises
    [StorageBackendError] when the access-key id or the secret is absent or
    empty, and every operation raises it when no bucket is named; the
    error is raised before the clock is read or a request is sent. *)
Theorem configuration_errors config :
  (forall file bucket_name,
     no_credentials config
     \/ (no_bucket config bucket_name /\ unusable (StorageFile.bucket_name file)) ->
     fails_before_io (upload_file config file bucket_name))
  /\ (forall object_name bucket_name,
        no_credentials config \/ no_bucket config bucket_name ->
        fails_before_io (download_file config object_name bucket_name)
        /\ fails_before_io (delete_file config object_name bucket_name)
        /\ fails_before_io (file_exists config object_name bucket_name)
        /\ (forall data position,
              fails_before_io
                (append_file config object_name data bucket_name position))
        /\ (forall expires_in, expires_in <> 0 ->
              fails_before_io
                (get_file_url config object_name bucket_name (Some expires_in))))
  /\ (forall object_name bucket_name expires_in,
        no_bucket config bucket_name ->
        fails_before_io (get_file_url config object_name bucket_name expires_in)).
Proof.
  split; [| split].
  - intros file bucket_name [Hcred|[[H1 H2] H3]].
    + destruct (upload_file_unsigned config file bucket_name Hcred) as [msg Hm].
      by apply (raise_fails _ msg).
    + apply (raise_fails _ "桶名未指定"). unfold upload_file.
      rewrite get_bucket_fails; [done |].
      split; [by apply or_else_unusable | done].
  - intros object_name bucket_name [Hcred|Hb].
    + split; [| split; [| split; [| split]]].
      * destruct (download_file_unsigned config object_name bucket_name Hcred)
          as [msg Hm]. by apply (raise_fails _ msg).
      * destruct (delete_file_unsigned config object_name bucket_name Hcred)
          as [msg Hm]. by apply (raise_fails _ msg).
      * destruct (file_exists_unsigned config object_name bucket_name Hcred)
          as [msg Hm]. by apply (raise_fails _ msg).
      * intros data position.
        destruct (append_file_unsigned config object_name data bucket_name
                    position Hcred) as [msg Hm]. by apply (raise_fails _ msg).
      * intros expires_in Hne.
        destruct (presigned_url_unsigned config object_name bucket_name
                    expires_in Hne Hcred) as [msg Hm]. by apply (raise_fails _ msg).
    + pose proof (get_bucket_fails _ _ Hb) as Hfail.
      split; [| split; [| split; [| split]]]; intros;
        apply (raise_fails _ "桶名未指定");
        unfold download_file, delete_file, file_exists, append_file, get_file_url;
        by rewrite Hfail.
  - intros object_name bucket_name expires_in Hb.
    apply (raise_fails _ "桶名未指定"). unfold get_file_url.
    by rewrite (get_bucket_fails _ _ Hb).
Qed.

(** C5 as stated fails: a delete without a secret raises the same kind of
    error as a delete whose request fails in transport; and without a
    secret the URL of an object is still given when no expiry is asked. *)
Lemma missing_secret_is_backend_error :
  call (Sample.always (Httpx.RequestError "boom"))
    (delete_file Sample.config_no_secret "a.txt" None)
  = (inl (StorageBackendError "缺少访问密钥"), [])
  /\ (call (Sample.always (Httpx.RequestError "boom"))
        (delete_file Sample.config "a.txt" None)).1
     = inl (StorageBackendError "COS 请求失败: boom")
  /\ kind_of (StorageBackendError "缺少访问密钥")
     = kind_of (StorageBackendError "COS 请求失败: boom")
  /\ call (Sample.always (Httpx.RequestError "boom"))
       (get_file_url Sample.config_no_secret "a.txt" None None)
     = (inr "https://b1.cos.ap-guangzhou.myqcloud.com/a.txt", []).
Proof. repeat split; vm_compute; reflexivity. Qed.

End configuration_errors.

(** * Further properties *)

(** ** More on strings *)

Section more_strings.

Implicit Types s t chars : string.

Lemma last_char_cons (a : ascii) s :
  last_char (String a s) = Some (default a (last_char s)).
Proof.
  revert a. induction s as [|b s IH]; intros a; [done |].
  change (last_char (String a (String b s))) with (last_char (String b s)).
  by rewrite !IH.
Qed.

Lemma last_char_app s t :
  last_char (s +:+ t) = match last_char t with
                        | Some c => Some c
                        | None => last_char s
                        end.
Proof.
  induction s as [|a s IH].
  - simpl. by destruct (last_char t).
  - change (String a s +:+ t) with (String a (s +:+ t)).
    rewrite !last_char_cons, IH. by destruct (last_char t).
Qed.

Lemma last_char_ends c s : last_char s = Some c <-> ends_in c s.
Proof.
  split.
  - induction s as [|a s IH]; [done |]. simpl.
    destruct s as [|b s].
    + intros [= ->]. by exists EmptyString.
    + intros H. destruct (IH H) as [rest ->]. by exists (String a rest).
  - intros [rest ->]. by rewrite last_char_app.
Qed.

Lemma lower_app s t : Py.lower (s +:+ t) = Py.lower s +:+ Py.lower t.
Proof. induction s as [|a s IH]; simpl; [done | by rewrite IH]. Qed.

Lemma quote_app s t safe :
  Urllib.quote (s +:+ t) safe = Urllib.quote s safe +:+ Urllib.quote t safe.
Proof.
  induction s as [|a s IH]; [done |].
  change (Urllib.quote_char safe a +:+ Urllib.quote (s +:+ t) safe
          = (Urllib.quote_char safe a +:+ Urllib.quote s safe) +:+ Urllib.quote t safe).
  by rewrite IH, string_app_assoc.
Qed.

(** What [rstrip] returns is the start of its argument... *)
Lemma rstrip_prefix s chars : exists t, s = Py.rstrip s chars +:+ t.
Proof.
  induction s as [|a s [t IH]]; [by exists EmptyString |]. simpl.
  destruct (Py.rstrip s chars) as [|b r] eqn:E.
  - destruct (Py.char_in a chars).
    + by exists (String a s).
    + exists s. done.
  - exists t. simpl in *. by rewrite <- IH.
Qed.

(** ... and does not end in one of the characters stripped. *)
Lemma rstrip_last s chars c :
  last_char (Py.rstrip s chars) = Some c -> Py.char_in c chars = false.
Proof.
  induction s as [|a s IH]; [done |]. simpl.
  destruct (Py.rstrip s chars) as [|b r] eqn:E.
  - destruct (Py.char_in a chars) eqn:Ha; [done |]. by intros [= <-].
  - intros H. apply IH. by destruct r.
Qed.

(** What [lstrip] returns does not start with one of the characters
    stripped. *)
Lemma lstrip_first s chars c rest :
  Py.lstrip s chars = String c rest -> Py.char_in c chars = false.
Proof.
  induction s as [|a s IH]; [done |]. simpl.
  destruct (Py.char_in a chars) eqn:Ha; [done |]. by intros [= <- _].
Qed.

(** Stripped of [chars], a string neither starts nor ends with one of
    them. *)
Lemma strip_clean s chars c :
  Py.char_in c chars = true ->
  ~ starts_in c (Py.strip s chars) /\ ~ ends_in c (Py.strip s chars).
Proof.
  intros Hc. unfold Py.strip. split.
  - intros [rest Hr].
    destruct (rstrip_prefix (Py.lstrip s chars) chars) as [t Ht].
    rewrite Hr in Ht. simpl in Ht.
    apply lstrip_first in Ht. congruence.
  - intros H%last_char_ends. apply rstrip_last in H. congruence.
Qed.

End more_strings.

(** ** Buckets and hosts *)

Section buckets_and_hosts.

Import COSStorage.

Implicit Types (config : StorageConfig.t).

Lemma truthy_some (b : string) : b <> EmptyString -> Py.truthy (Some b) = true.
Proof. intros H. apply truthy_configured. by exists b. Qed.

Lemma get_bucket_first config (o : option string) b :
  configured o b -> _get_bucket config o = Ret b.
Proof.
  intros [-> Hb]. unfold _get_bucket, Py.or_else.
  by rewrite !(truthy_some _ Hb).
Qed.

Lemma get_bucket_default config (o : option string) b :
  unusable o -> configured (StorageConfig.bucket_name config) b ->
  _get_bucket config o = Ret b.
Proof.
  intros Ho [E Hb]. unfold _get_bucket, Py.or_else.
  rewrite (proj2 (truthy_unusable _) Ho), E.
  by rewrite !(truthy_some _ Hb).
Qed.

Lemma or_else_first (a b : option string) s :
  configured a s -> configured (Py.or_else a b) s.
Proof.
  intros H. unfold Py.or_else. by rewrite (proj2 (truthy_configured _)) by eauto.
Qed.

Lemma or_else_second (a b : option string) : unusable a -> Py.or_else a b = b.
Proof. intros H. unfold Py.or_else. by rewrite (proj2 (truthy_unusable _) H). Qed.

(** The bucket of a call is the first of the explicit argument, the bucket
    of the file (for an upload) and the default of the configuration that
    is given and not empty; an empty name counts as none.  Without any, the
    call raises; a bucket that is returned is never empty. *)
Theorem bucket_precedence config (explicit per_file : option string) :
  (forall b, configured explicit b ->
     _get_bucket config explicit = Ret b
     /\ _get_bucket config (Py.or_else explicit per_file) = Ret b)
  /\ (forall b, unusable explicit -> configured per_file b ->
        _get_bucket config (Py.or_else explicit per_file) = Ret b)
  /\ (forall b, unusable explicit ->
        configured (StorageConfig.bucket_name config) b ->
        _get_bucket config explicit = Ret b
        /\ (unusable per_file ->
            _get_bucket config (Py.or_else explicit per_file) = Ret b))
  /\ (unusable explicit -> unusable (StorageConfig.bucket_name config) ->
      _get_bucket config explicit = Raise (StorageBackendError "桶名未指定")
      /\ (unusable per_file ->
          _get_bucket config (Py.or_else explicit per_file)
          = Raise (StorageBackendError "桶名未指定")))
  /\ (forall b, _get_bucket config explicit = Ret b -> b <> EmptyString).
Proof.
  split; [| split; [| split; [| split]]].
  - intros b H. split; [by apply get_bucket_first |].
    by apply get_bucket_first, or_else_first.
  - intros b H1 H2. rewrite (or_else_second _ _ H1). by apply get_bucket_first.
  - intros b H1 H2. split; [by apply get_bucket_default |].
    intros H3. rewrite (or_else_second _ _ H1). by apply get_bucket_default.
  - intros H1 H2. split; [by apply get_bucket_fails |].
    intros H3. rewrite (or_else_second _ _ H1). by apply get_bucket_fails.
  - intros b. unfold _get_bucket.
    destruct (Py.truthy _) eqn:E; simpl; [| done].
    apply truthy_configured in E as [s [-> Hs]]. by intros [= <-].
Qed.

Lemma not_ends_last c s : last_char s <> Some c -> ~ ends_in c s.
Proof. intros H E. by apply last_char_ends in E. Qed.

(** A host that is resolved contains the name of the bucket and does not
    end in a slash, whatever the endpoint or the region; the base URL is the
    host behind [https://]. *)
Theorem resolved_host_shape config (bucket h : string) :
  _get_host config bucket = Ret h ->
  substring bucket h
  /\ ~ ends_in "/" h
  /\ _get_base_url config bucket = Ret ("https://" +:+ h).
Proof.
  intros H. split; [| split]; [| | unfold _get_base_url; by rewrite H].
  - unfold _get_host in H.
    destruct (Py.truthy (StorageConfig.endpoint config)).
    + destruct (Py.contains bucket _) eqn:Hc; injection H as <-.
      * by apply contains_spec.
      * by eexists EmptyString, _.
    + destruct (Py.truthy (StorageConfig.region config)); [| done].
      injection H as <-. by eexists EmptyString, _.
  - apply not_ends_last. unfold _get_host in H.
    destruct (Py.truthy (StorageConfig.endpoint config)).
    + destruct (Py.contains bucket _) eqn:Hc; injection H as <-.
      * intros E. by apply rstrip_last in E.
      * rewrite last_char_app.
        change ("." +:+ ?s) with (String "." s). rewrite last_char_cons.
        destruct (last_char (Py.rstrip _ _)) as [c|] eqn:E; [| done].
        simpl. intros [= ->]. by apply rstrip_last in E.
    + destruct (Py.truthy (StorageConfig.region config)); [| done].
      injection H as <-.
      rewrite last_char_app, !last_char_cons, last_char_app. by simpl.
Qed.

(** The theorem at an acceleration endpoint given with scheme and slash. *)
Lemma resolved_host_shape_witness :
  _get_host (StorageConfig.Build None None None (Some "https://accel.example.com/")
               None None) "b1" = Ret "b1.accel.example.com"
  /\ substring "b1" "b1.accel.example.com"
  /\ ~ ends_in "/" "b1.accel.example.com".
Proof.
  split; [reflexivity |].
  destruct (resolved_host_shape
              (StorageConfig.Build None None None (Some "https://accel.example.com/")
                 None None) "b1" "b1.accel.example.com" eq_refl) as (H1 & H2 & _).
  by split.
Defined.

End buckets_and_hosts.

(** ** Signed headers *)

Section signed_headers.

Import COSStorage.

Implicit Types (config : StorageConfig.t) (e : env) (headers : gmap string string).

Lemma filter_headers_insert headers k v :
  _filter_headers (<[k := v]> headers)
  = if signed_header k then <[k := v]> (_filter_headers headers)
    else _filter_headers headers.
Proof.
  apply map_eq. intros j. rewrite filter_headers_lookup.
  destruct (decide (k = j)) as [->|Hne].
  - rewrite lookup_insert_eq. destruct (signed_header j) eqn:Hj.
    + by rewrite lookup_insert_eq.
    + by rewrite filter_headers_lookup, Hj.
  - rewrite lookup_insert_ne by done. destruct (signed_header k).
    + by rewrite lookup_insert_ne, filter_headers_lookup.
    + by rewrite filter_headers_lookup.
Qed.

Lemma filter_headers_all_signed headers :
  all_signed headers -> _filter_headers headers = headers.
Proof.
  intros H. apply map_eq. intros k. rewrite filter_headers_lookup.
  destruct (signed_header k) eqn:Hk; [done |].
  destruct (headers !! k) as [v|] eqn:E; [| done].
  apply H, signed_header_retained in E. congruence.
Qed.

(** What the filter returns is part of its argument, passes the filter
    unchanged, and is empty for no headers; a header added to the argument
    is added to the result when its name takes part in signing, and leaves
    the result as it is otherwise. *)
Theorem filter_headers_laws headers (k v : string) :
  _filter_headers headers ⊆ headers
  /\ _filter_headers (_filter_headers headers) = _filter_headers headers
  /\ _filter_headers ∅ = ∅
  /\ (retained k ->
      _filter_headers (<[k := v]> headers) = <[k := v]> (_filter_headers headers))
  /\ (~ retained k ->
      _filter_headers (<[k := v]> headers) = _filter_headers headers).
Proof.
  split; [| split; [| split; [| split]]].
  - apply map_subseteq_spec. intros j x. rewrite filter_headers_lookup.
    by destruct (signed_header j).
  - apply filter_headers_all_signed. intros j x.
    rewrite filter_headers_lookup. destruct (signed_header j) eqn:Hj; [| done].
    intros _. by apply signed_header_retained.
  - done.
  - intros H%signed_header_retained. by rewrite filter_headers_insert, H.
  - intros H. rewrite filter_headers_insert.
    destruct (signed_header k) eqn:Hk; [| done].
    by apply signed_header_retained in Hk.
Qed.

(** The signer takes the method in any case of letters, and a header that
    takes no part in signing makes no difference to what it returns. *)
Theorem sign_ignores_unsigned_headers config (m1 m2 path : string)
    (params : option (gmap string string)) headers (k v : string) (expire : Z) :
  ~ retained k ->
  Py.lower m1 = Py.lower m2 ->
  _sign config m1 path params (Some (<[k := v]> headers)) expire
  = _sign config m2 path params (Some headers) expire.
Proof.
  intros Hk Hm. unfold _sign. simpl (default _ (Some _)).
  rewrite filter_headers_insert.
  destruct (signed_header k) eqn:E; [by apply signed_header_retained in E |].
  unfold auth_string, http_string. by rewrite Hm.
Qed.

(** The theorem at a [user-agent] header and the method in lower case. *)
Lemma sign_ignores_unsigned_headers_witness :
  ~ retained "user-agent"
  /\ _sign Sample.config "get" "/a.txt" None
       (Some (<["user-agent" := "httpx"]> {[ "host" := Sample.host ]})) 3600
     = _sign Sample.config "GET" "/a.txt" None (Some {[ "host" := Sample.host ]}) 3600.
Proof.
  assert (~ retained "user-agent") as H.
  { intros H%signed_header_retained. vm_compute in H. discriminate H. }
  split; [exact H |].
  exact (sign_ignores_unsigned_headers Sample.config "get" "GET" "/a.txt" None
           {[ "host" := Sample.host ]} "user-agent" "httpx" 3600 H eq_refl).
Defined.


Lemma all_signed_insert headers k v :
  retained k -> all_signed headers -> all_signed (<[k := v]> headers).
Proof.
  intros Hk H j x. destruct (decide (k = j)) as [->|Hne]; [done |].
  rewrite lookup_insert_ne by done. apply H.
Qed.

Lemma all_signed_host (h : string) : all_signed {[ "host" := h ]}.
Proof.
  intros j x [<- _]%lookup_singleton_Some. apply signed_header_retained. done.
Qed.

Lemma retained_meta (k : string) : retained ("x-cos-meta-" +:+ k).
Proof. right. exists ("meta-" +:+ Py.lower k). by rewrite lower_app. Qed.

Lemma retained_literal (name : string) : signed_header name = true -> retained name.
Proof. apply signed_header_retained. Qed.

Lemma all_signed_base config h : all_signed (base_headers config h).
Proof.
  unfold base_headers. destruct (Py.truthy _).
  - apply all_signed_insert; [by apply retained_literal | apply all_signed_host].
  - apply all_signed_host.
Qed.

Lemma all_signed_body config h n : all_signed (body_headers config h n).
Proof.
  unfold body_headers. destruct (Py.truthy _).
  - do 2 (apply all_signed_insert; [by apply retained_literal |]).
    apply all_signed_host.
  - apply all_signed_insert; [by apply retained_literal |].
    apply all_signed_host.
Qed.

Lemma all_signed_meta headers (metadata : gmap string string) :
  all_signed headers ->
  all_signed (map_fold (fun k v headers => <["x-cos-meta-" +:+ k := v]> headers)
                headers metadata).
Proof.
  intros H.
  apply (map_fold_weak_ind (fun r (_ : gmap string string) => all_signed r)); [done |].
  intros i x m r _ IH. apply all_signed_insert; [apply retained_meta | done].
Qed.

Lemma all_signed_upload config file h : all_signed (upload_headers config file h).
Proof.
  unfold upload_headers.
  assert (all_signed (<["content-length" :=
                         Py.str (Py.len (_read_file_data file))]> {[ "host" := h ]})) as H0.
  { apply all_signed_insert; [by apply retained_literal | apply all_signed_host]. }
  cbv zeta.
  destruct (Py.truthy (StorageConfig.session_token config));
    [apply all_signed_insert; [by apply retained_literal |] |];
    (destruct (StorageFile.metadata file); [apply all_signed_meta |]);
    (destruct (Py.truthy (StorageFile.content_type file));
       [apply all_signed_insert; [by apply retained_literal | done] | done]).
Qed.

(** A request made by [signed_request] from headers that all take part in
    signing carries the signature of its own headers. *)
Lemma signed_request_self_signed id key method url path params headers content now :
  all_signed headers ->
  self_signed id key path params now
    (signed_request id key method url path params headers content now).
Proof.
  intros H. unfold self_signed, signed_request. simpl. split.
  - rewrite lookup_insert_eq, filter_headers_insert.
    replace (signed_header "authorization") with false by done.
    done.
  - intros k v. destruct (decide ("authorization" = k)) as [<-|Hne]; [by left |].
    rewrite lookup_insert_ne by done. intros Hk. right. by apply (H k v).
Qed.

(** Every request an operation sends carries, as its [authorization], the
    signature of the headers it is sent with: all its other headers take
    part in signing, and [authorization] itself does not. *)
Theorem requests_self_signed e config object_name bucket_name
    b h id key reads sent :
  let path := path_of object_name in
  let now := clock e reads in
  let sends {A : Type} (p : prog A) (params : gmap string string) :=
    exists rq, (run e p reads sent).2 = sent ++ [rq]
               /\ self_signed id key path params now rq in
  resolves config bucket_name b h id key ->
  sends (download_file config object_name bucket_name) ∅
  /\ sends (delete_file config object_name bucket_name) ∅
  /\ sends (file_exists config object_name bucket_name) ∅
  /\ (forall data position,
        sends (append_file config object_name data bucket_name (Some position))
          (append_params position))
  /\ (forall file bucket_name',
        StorageFile.object_name file = object_name ->
        resolves config (Py.or_else bucket_name' (StorageFile.bucket_name file))
          b h id key ->
        sends (upload_file config file bucket_name') ∅).
Proof.
  intros path now sends H.
  split; [| split; [| split; [| split]]].
  - eexists. rewrite (download_file_run _ _ _ _ _ _ _ _ _ _ H). split; [done |].
    apply signed_request_self_signed, all_signed_base.
  - eexists. rewrite (delete_file_run _ _ _ _ _ _ _ _ _ _ H). split; [done |].
    apply signed_request_self_signed, all_signed_base.
  - eexists. rewrite (file_exists_run _ _ _ _ _ _ _ _ _ _ H). split; [done |].
    apply signed_request_self_signed, all_signed_base.
  - intros data position. eexists.
    rewrite (append_file_at _ _ _ _ _ _ _ _ _ _ _ _ H). split; [done |].
    apply signed_request_self_signed, all_signed_body.
  - intros file bucket_name' <- H'. eexists.
    rewrite (upload_file_run _ _ _ _ _ _ _ _ _ _ H'). split; [done |].
    apply signed_request_self_signed, all_signed_upload.
Qed.

(** The theorem at a delete with the sample configuration. *)
Lemma requests_self_signed_witness :
  resolves Sample.config None "b1" Sample.host "AKID" "secret"
  /\ exists rq,
       (call (Sample.always (Httpx.RequestError EmptyString))
          (delete_file Sample.config "a.txt" None)).2 = [rq]
       /\ self_signed "AKID" "secret" "/a.txt" ∅ 1700000000 rq.
Proof.
  split; [exact sample_resolves |].
  destruct (requests_self_signed (Sample.always (Httpx.RequestError EmptyString))
              Sample.config "a.txt" None "b1" Sample.host "AKID" "secret" O []
              sample_resolves) as (_ & Hdel & _).
  exact Hdel.
Defined.

End signed_headers.

(** ** Uploads *)

Section uploads.

Import COSStorage.

Implicit Types (config : StorageConfig.t) (e : env) (file : StorageFile.t).






Lemma dquote_in : Py.char_in (Py.chr 34) Py.dquote = true.
Proof. reflexivity. Qed.

(** An upload that gets a successful response returns the bucket, the key,
    the permanent URL and the ETag of the response without the quotes around
    it: the [etag] header stripped of quotes is returned when something is
    left of it, and no ETag when the response has no such header or one of
    quotes only; an ETag that is returned is not empty and neither starts
    nor ends with a quote.  Any other status, and a transport failure, raise
    [StorageBackendError]. *)
Theorem upload_file_outcomes e config file bucket_name b h id key reads sent :
  let object_name := StorageFile.object_name file in
  let rq := signed_request id key "PUT" (object_url h (path_of object_name))
              (path_of object_name) ∅ (upload_headers config file h)
              (_read_file_data file) (clock e reads) in
  let out := run e (upload_file config file bucket_name) reads sent in
  resolves config (Py.or_else bucket_name (StorageFile.bucket_name file)) b h id key ->
  (forall m, network e sent rq = Httpx.RequestError m ->
     out.1 = inl (StorageBackendError ("COS 请求失败: " +:+ m)))
  /\ (forall r, network e sent rq = Httpx.Responded r ->
        Httpx.is_success r = false ->
        exists msg, out.1 = inl (StorageBackendError msg))
  /\ (forall r, network e sent rq = Httpx.Responded r ->
        Httpx.is_success r = true ->
        exists result,
          out.1 = inr result
          /\ UploadResult.bucket_name result = b
          /\ UploadResult.object_name result = object_name
          /\ UploadResult.url result
             = "https://" +:+ h +:+ "/" +:+ Urllib.quote object_name "/-_.~"
          /\ (Httpx.get r "etag" = None -> UploadResult.etag result = None)
          /\ (forall v, Httpx.get r "etag" = Some v ->
                (Py.strip v Py.dquote <> EmptyString ->
                 UploadResult.etag result = Some (Py.strip v Py.dquote))
                /\ (Py.strip v Py.dquote = EmptyString ->
                    UploadResult.etag result = None))
          /\ (forall t, UploadResult.etag result = Some t ->
                exists v, Httpx.get r "etag" = Some v
                          /\ t = Py.strip v Py.dquote
                          /\ t <> EmptyString
                          /\ ~ starts_in (Py.chr 34) t
                          /\ ~ ends_in (Py.chr 34) t)).
Proof.
  intros object_name rq out H. unfold out.
  rewrite (upload_file_run _ _ _ _ _ _ _ _ _ _ H). fold object_name. fold rq.
  split; [| split].
  - by intros m ->.
  - intros r -> Hno. simpl. rewrite Hno. eauto.
  - intros r -> Hok. simpl. rewrite Hok. eexists. split; [done |].
    split; [done |]. split; [done |]. split; [done |]. split; [| split].
    + intros ->. done.
    + intros v ->. simpl. split.
      * intros Hne. by rewrite (proj2 (String.eqb_neq _ _) Hne).
      * intros ->. done.
    + intros t. simpl.
      destruct (String.eqb_spec
                  (Py.strip (default EmptyString (Httpx.get r "etag")) Py.dquote)
                  EmptyString) as [E|E]; simpl; [done |].
      intros [= <-]. destruct (Httpx.get r "etag") as [v|] eqn:Hv; [| done].
      exists v. split; [done |]. split; [done |]. split; [done |].
      apply strip_clean, dquote_in.
Qed.

(** The theorem at an upload the server answers with a quoted ETag. *)
Lemma upload_file_outcomes_witness :
  resolves Sample.config
    (Py.or_else None (StorageFile.bucket_name sample_report))
    "b1" Sample.host "AKID" "secret"
  /\ exists result,
       (call (Sample.always
                (Httpx.Responded
                   (Sample.response 200
                      {[ "etag" := Py.dquote +:+ "abc123" +:+ Py.dquote ]} EmptyString)))
          (upload_file Sample.config sample_report None)).1 = inr result
       /\ UploadResult.bucket_name result = "b1"
       /\ UploadResult.etag result = Some "abc123".
Proof.
  split; [exact sample_resolves |].
  destruct (upload_file_outcomes
              (Sample.always
                 (Httpx.Responded
                    (Sample.response 200
                       {[ "etag" := Py.dquote +:+ "abc123" +:+ Py.dquote ]} EmptyString)))
              Sample.config sample_report None "b1" Sample.host "AKID" "secret" O []
              sample_resolves) as (_ & _ & Hok).
  destruct (Hok _ eq_refl eq_refl) as (result & Hres & Hb & _ & _ & _ & Hetag & _).
  exists result. split; [exact Hres |]. split; [exact Hb |].
  assert (Httpx.get (Sample.response 200
                       {[ "etag" := Py.dquote +:+ "abc123" +:+ Py.dquote ]} EmptyString)
            "etag" = Some (Py.dquote +:+ "abc123" +:+ Py.dquote)) as Hv
    by (vm_compute; reflexivity).
  destruct (Hetag _ Hv) as (Hsome & _).
  apply Hsome. discriminate.
Defined.

Lemma quote_slash s :
  Urllib.quote ("/" +:+ s) "/-_.~" = "/" +:+ Urllib.quote s "/-_.~".
Proof. reflexivity. Qed.

(** The permanent URL of a key is the URL of the path made of a slash and
    the key.  For a key that does not start with a slash this is the URL
    the requests for the key go to; for a key that starts with a slash it is
    another one, with one slash more. *)
Theorem permanent_url_shape config (b h object_name : string) :
  _get_host config b = Ret h ->
  _build_url config b object_name = Ret (object_url h ("/" +:+ object_name))
  /\ (~ starts_in "/" object_name ->
      object_url h ("/" +:+ object_name) = object_url h (path_of object_name))
  /\ (starts_in "/" object_name ->
      object_url h ("/" +:+ object_name)
      = "https://" +:+ h +:+ "/" +:+ Urllib.quote (path_of object_name) "/-_.~"
      /\ object_url h ("/" +:+ object_name) <> object_url h (path_of object_name)).
Proof.
  intros Hh. split; [| split].
  - unfold _build_url. rewrite Hh. by rewrite bind_Ret.
  - intros Hn. rewrite path_of_no_slash; [done |].
    intros rest ->. apply Hn. by exists rest.
  - intros [rest ->]. rewrite path_of_slash by (by exists rest).
    split; [done |]. unfold object_url. rewrite quote_slash.
    intros E. do 2 apply (inj _) in E.
    apply (f_equal String.length) in E. simpl in E. lia.
Qed.

(** The theorem at a key with a leading slash. *)
Lemma permanent_url_shape_witness :
  _get_host Sample.config "b1" = Ret Sample.host
  /\ _build_url Sample.config "b1" "/a.txt"
     = Ret "https://b1.cos.ap-guangzhou.myqcloud.com//a.txt".
Proof.
  split; [reflexivity |].
  destruct (permanent_url_shape Sample.config "b1" Sample.host "/a.txt" eq_refl)
    as (H & _).
  exact H.
Defined.

End uploads.

(** ** URLs *)

Section urls.

Import COSStorage.

Implicit Types (config : StorageConfig.t) (e : env).

Lemma filter_host (h : string) : _filter_headers {[ "host" := h ]} = {[ "host" := h ]}.
Proof. apply filter_headers_all_signed, all_signed_host. Qed.

Lemma host_items (h : string) :
  Py.sorted_items {[ "host" := h ]} = [("host", h)].
Proof. vm_compute; reflexivity. Qed.

Lemma host_keys (h : string) :
  Py.sorted (Py.lower <$> Py.keys {[ "host" := h ]}) = ["host"].
Proof. vm_compute; reflexivity. Qed.

(** The string signed for a request without parameters whose only signed
    header is the host. *)
Lemma http_string_host (method path h : string) :
  http_string method path ∅ {[ "host" := h ]}
  = Py.lower method +:+ nl +:+ path +:+ nl +:+ nl
      +:+ "host=" +:+ Urllib.quote h "-_.~" +:+ nl.
Proof.
  unfold http_string, header_str. rewrite host_items.
  unfold param_str, canonical_pair, fmap, list_fmap, Py.join. simpl fst. simpl snd.
  by rewrite !string_app_assoc.
Qed.

(** A presigned URL is the URL of the object, a question mark, and the
    seven authorization fields joined by [&]: the only header listed is
    [host], no parameter is listed, the window runs from 60 seconds before
    the clock to [expires_in] seconds after it, and the string signed is the
    lower-cased method, the path as it is, an empty line and [host=] with
    the encoded host.  No request is sent. *)
Theorem presigned_url_fields e config (b h id key object_name method : string)
    (expires_in : Z) reads sent :
  let path := path_of object_name in
  let window := Py.str (clock e reads - 60) +:+ ";"
                  +:+ Py.str (clock e reads - 60 + expires_in + 60) in
  _get_host config b = Ret h ->
  configured (StorageConfig.access_key_id config) id ->
  configured (StorageConfig.access_key_secret config) key ->
  run e (_get_presigned_url config b object_name method expires_in) reads sent
  = (inr (object_url h path +:+ "?"
            +:+ Py.join "&"
                  [ "q-sign-algorithm=sha1";
                    "q-ak=" +:+ id;
                    "q-sign-time=" +:+ window;
                    "q-key-time=" +:+ window;
                    "q-header-list=host";
                    "q-url-param-list=";
                    "q-signature=" +:+
                      signature key window
                        (Py.lower method +:+ nl +:+ path +:+ nl +:+ nl
                           +:+ "host=" +:+ Urllib.quote h "-_.~" +:+ nl) ]),
     sent).
Proof.
  intros path window Hh Hid Hkey.
  rewrite (presigned_url_run _ _ _ _ _ _ _ _ _ _ _ Hh Hid Hkey).
  rewrite filter_host, auth_string_fields, http_string_host, host_keys.
  reflexivity.
Qed.

(** The theorem at a presigned [GET] for an hour. *)
Lemma presigned_url_fields_witness :
  _get_host Sample.config "b1" = Ret Sample.host
  /\ configured (Some "AKID") "AKID"
  /\ configured (Some "secret") "secret"
  /\ exists url,
       (call (Sample.always (Httpx.RequestError EmptyString))
          (_get_presigned_url Sample.config "b1" "a.txt" "GET" 3600)) = (inr url, []).
Proof.
  assert (configured (Some "AKID") "AKID") as H1 by (split; [reflexivity | discriminate]).
  assert (configured (Some "secret") "secret") as H2
    by (split; [reflexivity | discriminate]).
  split; [reflexivity |]. split; [exact H1 |]. split; [exact H2 |].
  eexists.
  exact (presigned_url_fields (Sample.always (Httpx.RequestError EmptyString))
           Sample.config "b1" Sample.host "AKID" "secret" "a.txt" "GET" 3600 O []
           eq_refl H1 H2).
Defined.

Lemma build_url_sends_nothing e config b object_name reads sent :
  (run e (_build_url config b object_name) reads sent).2 = sent.
Proof.
  unfold _build_url.
  destruct (get_host_cases config b) as [[h ->] | [msg ->]]; by rewrite ?bind_Ret.
Qed.

Lemma presigned_url_sends_nothing e config b object_name method expires_in reads sent :
  (run e (_get_presigned_url config b object_name method expires_in) reads sent).2
  = sent.
Proof.
  destruct (get_host_cases config b) as [[h Hh]|[msg Hh]].
  - destruct (credentials_cases config) as [(id & key & Hid & Hkey)|Hno].
    + by rewrite (presigned_url_run _ _ _ _ _ _ _ _ _ _ _ Hh Hid Hkey).
    + unfold _get_presigned_url. rewrite Hh, bind_Ret. cbv zeta.
      by rewrite (sign_fails _ _ _ _ _ _ Hno).
  - unfold _get_presigned_url. by rewrite Hh.
Qed.

(** [get_file_url] never sends a request.  Without an expiry, or with the
    expiry 0, it returns the permanent URL, for which it needs a bucket and a
    host but no credentials and no clock; with another expiry it returns the
    presigned URL for a [GET]. *)
Theorem get_file_url_outcomes e config (object_name : string)
    (bucket_name : option string) (expires_in : option Z) reads sent :
  (run e (get_file_url config object_name bucket_name expires_in) reads sent).2 = sent
  /\ (forall b h,
        expires_in = None \/ expires_in = Some 0 ->
        _get_bucket config bucket_name = Ret b ->
        _get_host config b = Ret h ->
        get_file_url config object_name bucket_name expires_in
        = Ret (object_url h ("/" +:+ object_name)))
  /\ (forall n b, expires_in = Some n -> n <> 0 ->
        _get_bucket config bucket_name = Ret b ->
        get_file_url config object_name bucket_name expires_in
        = _get_presigned_url config b object_name "GET" n).
Proof.
  split; [| split].
  - unfold get_file_url.
    destruct (get_bucket_cases config bucket_name) as [[b ->] | ->]; [| done].
    rewrite bind_Ret. destruct expires_in as [n|].
    + destruct (negb (n =? 0)).
      * apply presigned_url_sends_nothing.
      * apply build_url_sends_nothing.
    + apply build_url_sends_nothing.
  - intros b h Hexp Hb Hh. unfold get_file_url. rewrite Hb, bind_Ret.
    unfold _build_url. by destruct Hexp as [->| ->]; simpl; rewrite Hh.
  - intros n b -> Hn Hb. unfold get_file_url. rewrite Hb, bind_Ret.
    by rewrite (proj2 (Z.eqb_neq _ _) Hn).
Qed.

End urls.

(** ** Requests sent *)

Section requests_sent.

Import COSStorage.

Implicit Types (config : StorageConfig.t) (e : env).

Lemma resolves_cases config (bucket_name : option string) :
  (exists b h id key, resolves config bucket_name b h id key)
  \/ _get_bucket config bucket_name = Raise (StorageBackendError "桶名未指定")
  \/ (exists b msg, _get_bucket config bucket_name = Ret b
                    /\ _get_host config b = Raise (StorageBackendError msg))
  \/ (exists b h, _get_bucket config bucket_name = Ret b
                  /\ _get_host config b = Ret h /\ no_credentials config).
Proof.
  destruct (get_bucket_cases config bucket_name) as [[b Hb]|Hb]; [| by auto].
  destruct (get_host_cases config b) as [[h Hh]|[msg Hh]]; [| by eauto 10].
  destruct (credentials_cases config) as [(id & key & Hid & Hkey)|Hno].
  - left. by exists b, h, id, key.
  - do 3 right. by exists b, h.
Qed.

Lemma sends_none {A : Type} e (x : exn) reads sent n :
  sends_at_most n e (Raise x : prog A) reads sent.
Proof. exists []. split; [by rewrite app_nil_r | simpl; lia]. Qed.

Lemma sends_one {A : Type} e (p : prog A) reads sent rq (o : exn + A) n :
  run e p reads sent = (o, sent ++ [rq]) -> sends_at_most (S n) e p reads sent.
Proof. intros H. exists [rq]. rewrite H. split; [done | simpl; lia]. Qed.

(** The preamble of an operation whose configuration does not resolve:
    the operation is the [Raise] of its first failure. *)
Ltac unresolved H :=
  destruct H as [Hb | [(b & msg & Hb & Hh) | (b & h & Hb & Hh & Hno)]];
  rewrite Hb; rewrite ?bind_Ret; rewrite ?bind_Raise; cbv beta zeta;
  unfold _get_file_size;
  rewrite ?Hh; rewrite ?bind_Ret; rewrite ?bind_Raise; cbv beta zeta;
  rewrite ?(sign_fails _ _ _ _ _ _ Hno); rewrite ?bind_Raise;
  apply sends_none.

(** No operation repeats a request: a download, a delete, an existence
    check, an upload and an append at a given position send at most one
    request, an append without position at most two (the probe and the
    append), in whatever world and with whatever configuration; and none
    sends any when the configuration does not resolve a bucket, a host and
    the credentials. *)
Theorem request_count e config (object_name : string) (bucket_name : option string)
    reads sent :
  sends_at_most 1 e (download_file config object_name bucket_name) reads sent
  /\ sends_at_most 1 e (delete_file config object_name bucket_name) reads sent
  /\ sends_at_most 1 e (file_exists config object_name bucket_name) reads sent
  /\ (forall file, sends_at_most 1 e (upload_file config file bucket_name) reads sent)
  /\ (forall data position,
        sends_at_most 1 e
          (append_file config object_name data bucket_name (Some position)) reads sent)
  /\ (forall data,
        sends_at_most 2 e
          (append_file config object_name data bucket_name None) reads sent)
  /\ ((forall b h id key, ~ resolves config bucket_name b h id key) ->
      sends_at_most 0 e (download_file config object_name bucket_name) reads sent
      /\ sends_at_most 0 e (delete_file config object_name bucket_name) reads sent
      /\ sends_at_most 0 e (file_exists config object_name bucket_name) reads sent
      /\ (forall data position,
            sends_at_most 0 e
              (append_file config object_name data bucket_name position) reads sent))
  /\ (forall file,
        (forall b h id key,
           ~ resolves config (Py.or_else bucket_name (StorageFile.bucket_name file))
               b h id key) ->
        sends_at_most 0 e (upload_file config file bucket_name) reads sent).
Proof.
  split; [| split; [| split; [| split; [| split; [| split; [| split]]]]]].
  - destruct (resolves_cases config bucket_name) as [(b & h & id & key & H)|H].
    + eapply sends_one, (download_file_run _ _ _ _ _ _ _ _ _ _ H).
    + unfold download_file. unresolved H.
  - destruct (resolves_cases config bucket_name) as [(b & h & id & key & H)|H].
    + eapply sends_one, (delete_file_run _ _ _ _ _ _ _ _ _ _ H).
    + unfold delete_file. unresolved H.
  - destruct (resolves_cases config bucket_name) as [(b & h & id & key & H)|H].
    + eapply sends_one, (file_exists_run _ _ _ _ _ _ _ _ _ _ H).
    + unfold file_exists. unresolved H.
  - intros file.
    destruct (resolves_cases config
                (Py.or_else bucket_name (StorageFile.bucket_name file)))
      as [(b & h & id & key & H)|H].
    + eapply sends_one, (upload_file_run _ _ _ _ _ _ _ _ _ _ H).
    + unfold upload_file. unresolved H.
  - intros data position.
    destruct (resolves_cases config bucket_name) as [(b & h & id & key & H)|H].
    + eapply sends_one, (append_file_at _ _ _ _ _ _ _ _ _ _ _ _ H).
    + unfold append_file. unresolved H.
  - intros data.
    destruct (resolves_cases config bucket_name) as [(b & h & id & key & H)|H].
    + unfold sends_at_most. rewrite (append_file_probing _ _ _ _ _ _ _ _ _ _ _ H).
      destruct (probe _) as [x|size].
      * eexists [_]. split; [done | simpl; lia].
      * rewrite (append_file_at _ _ _ _ _ _ _ _ _ _ _ _ H).
        eexists [_; _]. split; [by rewrite <- (assoc_L (++)) | simpl; lia].
    + unfold append_file. unresolved H.
  - intros Hnot.
    destruct (resolves_cases config bucket_name) as [(b & h & id & key & H)|H];
      [by destruct (Hnot b h id key) |].
    split; [| split; [| split]].
    + unfold download_file. unresolved H.
    + unfold delete_file. unresolved H.
    + unfold file_exists. unresolved H.
    + intros data [position|]; unfold append_file; unresolved H.
  - intros file Hnot.
    destruct (resolves_cases config
                (Py.or_else bucket_name (StorageFile.bucket_name file)))
      as [(b & h & id & key & H)|H]; [by destruct (Hnot b h id key) |].
    unfold upload_file. unresolved H.
Qed.

End requests_sent.

(** ** Appends at a position and malformed sizes *)

Section append_edges.

Import COSStorage.

Implicit Types (config : StorageConfig.t) (e : env).

(** An append at a given position sends the [POST] alone, without a probe.
    A transport failure and a status that is no success raise
    [StorageBackendError]; on success the result is the number in
    [x-cos-next-append-position], the position plus the length of the data
    when that header is missing or empty, and a [ValueError] when the header
    holds ASCII text (of no more than 4300 characters) that is no number. *)
Theorem append_at_position e config object_name data bucket_name
    b h id key (position : Z) reads sent :
  let path := path_of object_name in
  let post := signed_request id key "POST"
                (object_url h path +:+ "?append=&position=" +:+ Py.str position)
                path (append_params position)
                (body_headers config h (Py.len data)) data (clock e reads) in
  let out := run e (append_file config object_name data bucket_name (Some position))
               reads sent in
  resolves config bucket_name b h id key ->
  out.2 = sent ++ [post]
  /\ (forall m, network e sent post = Httpx.RequestError m ->
        out.1 = inl (StorageBackendError ("COS 请求失败: " +:+ m)))
  /\ (forall r, network e sent post = Httpx.Responded r ->
        (Httpx.is_success r = false ->
         exists msg, out.1 = inl (StorageBackendError msg))
        /\ (Httpx.is_success r = true ->
            let next := Httpx.get r "x-cos-next-append-position" in
            (next = None \/ next = Some EmptyString ->
             out.1 = inr (position + Z.of_nat (String.length data)))
            /\ (forall s n, next = Some s -> s <> EmptyString ->
                  Py.int s = Some n -> out.1 = inr n)
            /\ (forall s, next = Some s -> s <> EmptyString ->
                  Py.is_ascii s = true -> (String.length s <= 4300)%nat ->
                  Py.int s = None -> out.1 = inl (ValueError s)))).
Proof.
  intros path post out H. unfold out.
  rewrite (append_file_at _ _ _ _ _ _ _ _ _ _ _ _ H). fold path. fold post.
  split; [done |]. split; [by intros m -> |].
  intros r ->. simpl. split.
  - intros ->. eauto.
  - intros ->. cbv zeta. split; [| split].
    + by intros [-> | ->].
    + intros s n -> Hne ->. by rewrite (proj2 (String.eqb_neq _ _) Hne).
    + intros s -> Hne _ _ ->. by rewrite (proj2 (String.eqb_neq _ _) Hne).
Qed.

(** The theorem at an append the server answers with the next position. *)
Lemma append_at_position_witness :
  resolves Sample.config None "b1" Sample.host "AKID" "secret"
  /\ (call (Sample.always
              (Httpx.Responded
                 (Sample.response 200 {[ "x-cos-next-append-position" := "12" ]}
                    EmptyString)))
        (append_file Sample.config "log.txt" "hello" None (Some 7))).1 = inr 12.
Proof.
  split; [exact sample_resolves |].
  destruct (append_at_position
              (Sample.always
                 (Httpx.Responded
                    (Sample.response 200 {[ "x-cos-next-append-position" := "12" ]}
                       EmptyString)))
              Sample.config "log.txt" "hello" None "b1" Sample.host "AKID" "secret"
              7 O [] sample_resolves) as (_ & _ & Hr).
  destruct (Hr _ eq_refl) as (_ & Hok).
  destruct (Hok eq_refl) as (_ & Hnext & _).
  apply (Hnext "12" 12 eq_refl); [discriminate | reflexivity].
Defined.

(** An append without position whose probe is answered with the status 200
    and a [content-length] of ASCII text (of no more than 4300 characters)
    that is no number raises [ValueError] after the probe: the [POST] is not
    sent and nothing is appended. *)
Theorem append_malformed_length e config object_name data bucket_name
    b h id key reads sent (r : Httpx.response) (s : string) :
  let path := path_of object_name in
  let head := signed_request id key "HEAD" (object_url h path) path ∅
                (base_headers config h) EmptyString (clock e reads) in
  resolves config bucket_name b h id key ->
  network e sent head = Httpx.Responded r ->
  Httpx.status_code r = 200 ->
  Httpx.get r "content-length" = Some s ->
  s <> EmptyString ->
  Py.is_ascii s = true ->
  (String.length s <= 4300)%nat ->
  Py.int s = None ->
  run e (append_file config object_name data bucket_name None) reads sent
  = (inl (ValueError s), sent ++ [head]).
Proof.
  intros path head H Hr Hs Hl Hne _ _ Hint.
  rewrite (append_file_probing _ _ _ _ _ _ _ _ _ _ _ H). fold path. fold head.
  rewrite Hr. simpl. rewrite Hs, Hl. simpl.
  by rewrite (proj2 (String.eqb_neq _ _) Hne), Hint.
Qed.

(** The theorem at a server that gives the length [12 bytes]. *)
Lemma append_malformed_length_witness :
  resolves Sample.config None "b1" Sample.host "AKID" "secret"
  /\ Py.is_ascii "12 bytes" = true
  /\ Py.int "12 bytes" = None
  /\ (call (Sample.always
              (Httpx.Responded
                 (Sample.response 200 {[ "content-length" := "12 bytes" ]} EmptyString)))
        (append_file Sample.config "log.txt" "hello" None None)).1
     = inl (ValueError "12 bytes").
Proof.
  split; [exact sample_resolves |]. split; [reflexivity |]. split; [reflexivity |].
  assert (Httpx.get (Sample.response 200 {[ "content-length" := "12 bytes" ]} EmptyString)
            "content-length" = Some "12 bytes") as Hl by (vm_compute; reflexivity).
  unfold call.
  rewrite (append_malformed_length
             (Sample.always
                (Httpx.Responded
                   (Sample.response 200 {[ "content-length" := "12 bytes" ]}
                      EmptyString)))
             Sample.config "log.txt" "hello" None "b1" Sample.host "AKID" "secret"
             O [] _ "12 bytes" sample_resolves eq_refl eq_refl Hl);
    [reflexivity | discriminate | reflexivity | simpl; lia | reflexivity].
Defined.

End append_edges.

(** ** Requests without a body *)

Section bodyless_requests.

Import COSStorage.

Implicit Types (config : StorageConfig.t) (e : env).

Lemma token_items (h t : string) :
  Py.sorted_items (<["x-cos-security-token" := t]> {[ "host" := h ]})
  = [("host", h); ("x-cos-security-token", t)].
Proof. vm_compute; reflexivity. Qed.

Lemma token_keys (h t : string) :
  Py.sorted (Py.lower <$> Py.keys (<["x-cos-security-token" := t]> {[ "host" := h ]}))
  = ["host"; "x-cos-security-token"].
Proof. vm_compute; reflexivity. Qed.

Lemma http_string_token (method path h t : string) :
  http_string method path ∅ (<["x-cos-security-token" := t]> {[ "host" := h ]})
  = Py.lower method +:+ nl +:+ path +:+ nl +:+ nl
      +:+ "host=" +:+ Urllib.quote h "-_.~"
      +:+ "&x-cos-security-token=" +:+ Urllib.quote t "-_.~" +:+ nl.
Proof.
  unfold http_string, header_str. rewrite token_items.
  unfold param_str, canonical_pair, fmap, list_fmap, Py.join. simpl fst. simpl snd.
  by rewrite !string_app_assoc.
Qed.

(** A download, a delete and an existence check send a [GET], a [DELETE]
    and a [HEAD] for the object with the headers [host], [authorization]
    and, when the configuration has a session token, [x-cos-security-token].
    The authorization lists the header [host], and the token header with
    it, and signs the lower-cased method, the path, an empty line for the
    parameters and the encoded host, and the encoded token with it. *)
Theorem bodyless_authorization e config object_name bucket_name
    b h id key reads sent :
  let path := path_of object_name in
  let window := Py.str (clock e reads - 60) +:+ ";"
                  +:+ Py.str (clock e reads - 60 + default_expire + 60) in
  let authorization method names signed :=
    Py.join "&"
      [ "q-sign-algorithm=sha1";
        "q-ak=" +:+ id;
        "q-sign-time=" +:+ window;
        "q-key-time=" +:+ window;
        "q-header-list=" +:+ names;
        "q-url-param-list=";
        "q-signature=" +:+
          signature key window
            (Py.lower method +:+ nl +:+ path +:+ nl +:+ nl +:+ signed +:+ nl) ] in
  let request method (headers : gmap string string) :=
    Httpx.Request method (object_url h path) headers EmptyString in
  resolves config bucket_name b h id key ->
  (unusable (StorageConfig.session_token config) ->
   let headers method : gmap string string :=
     <["authorization" :=
         authorization method "host" ("host=" +:+ Urllib.quote h "-_.~")]>
       {[ "host" := h ]} in
     (run e (download_file config object_name bucket_name) reads sent).2
     = sent ++ [request "GET" (headers "GET")]
     /\ (run e (delete_file config object_name bucket_name) reads sent).2
        = sent ++ [request "DELETE" (headers "DELETE")]
     /\ (run e (file_exists config object_name bucket_name) reads sent).2
        = sent ++ [request "HEAD" (headers "HEAD")])
  /\ (forall token, configured (StorageConfig.session_token config) token ->
      let headers method : gmap string string :=
        <["authorization" :=
            authorization method "host;x-cos-security-token"
              ("host=" +:+ Urllib.quote h "-_.~"
                 +:+ "&x-cos-security-token=" +:+ Urllib.quote token "-_.~")]>
          (<["x-cos-security-token" := token]> {[ "host" := h ]}) in
        (run e (download_file config object_name bucket_name) reads sent).2
        = sent ++ [request "GET" (headers "GET")]
        /\ (run e (delete_file config object_name bucket_name) reads sent).2
           = sent ++ [request "DELETE" (headers "DELETE")]
        /\ (run e (file_exists config object_name bucket_name) reads sent).2
           = sent ++ [request "HEAD" (headers "HEAD")]).
Proof.
  intros path window authorization request H.
  rewrite (download_file_run _ _ _ _ _ _ _ _ _ _ H),
    (delete_file_run _ _ _ _ _ _ _ _ _ _ H), (file_exists_run _ _ _ _ _ _ _ _ _ _ H).
  fold path. unfold signed_request, base_headers. simpl snd. split.
  - intros Ht. rewrite (proj2 (truthy_unusable _) Ht).
    rewrite filter_host, !auth_string_fields, !http_string_host, host_keys.
    unfold request, authorization, window, sign_time. by rewrite !string_app_assoc.
  - intros token Ht.
    rewrite (proj2 (truthy_configured _)) by eauto.
    rewrite (truthy_default _ _ Ht).
    rewrite (filter_headers_all_signed
               (<["x-cos-security-token" := token]> {[ "host" := h ]}))
      by (apply all_signed_insert; [by apply retained_literal | apply all_signed_host]).
    rewrite !auth_string_fields, !http_string_token, token_keys.
    unfold request, authorization, window, sign_time. by rewrite !string_app_assoc.
Qed.

(** The theorem at a delete without session token. *)
Lemma bodyless_authorization_witness :
  resolves Sample.config None "b1" Sample.host "AKID" "secret"
  /\ Httpx.headers <$> (call (Sample.always (Httpx.RequestError EmptyString))
                          (delete_file Sample.config "a.txt" None)).2
     = [ <["authorization" :=
             "q-sign-algorithm=sha1&q-ak=AKID"
             +:+ "&q-sign-time=1699999940;1700010000"
             +:+ "&q-key-time=1699999940;1700010000"
             +:+ "&q-header-list=host&q-url-param-list="
             +:+ "&q-signature=4a4f9f0d28e41a2357bb5a0d5903251f0cbe00f5"]>
           {[ "host" := Sample.host ]} ].
Proof.
  split; [exact sample_resolves |].
  destruct (bodyless_authorization (Sample.always (Httpx.RequestError EmptyString))
              Sample.config "a.txt" None "b1" Sample.host "AKID" "secret" O []
              sample_resolves) as (Hplain & _).
  destruct (Hplain (or_introl eq_refl)) as (_ & Hdelete & _).
  unfold call. rewrite Hdelete. vm_compute. reflexivity.
Defined.

End bodyless_requests.

(** ** Keys that need no encoding *)

Section plain_keys.

Import COSStorage.

Lemma Sorted_of_fmap {A B : Type} (f : A -> B) (R : relation B) (l : list A) :
  Sorted R (f <$> l) -> Sorted (fun x y => R (f x) (f y)) l.
Proof.
  induction l as [|a l IH]; [constructor |].
  intros H. apply Sorted_inv in H as [H1 H2]. constructor; [by apply IH |].
  destruct l as [|b l]; constructor. by apply HdRel_inv in H2.
Qed.

(** With plain keys, the items in the order of their encoded keys are the
    items as [sorted] gives them. *)
Lemma sorted_items_plain (d : gmap string string) (l : list (string * string)) :
  (forall k v, d !! k = Some v -> plain k = true) ->
  l ≡ₚ map_to_list d ->
  Sorted String.le (encoded_key <$> l) ->
  l = Py.sorted_items d.
Proof.
  intros Hplain Hperm Hsorted.
  destruct (sorted_items_by_key d) as [Hs Hp].
  assert (forall kv, kv ∈ map_to_list d -> encoded_key kv = kv.1) as Hkey.
  { intros [k v] Hin. apply plain_encoded_key, (Hplain k v).
    by apply elem_of_map_to_list. }
  assert (Transitive (fun a b : string * string => String.le a.1 b.1)) as Htrans.
  { intros a b c Hab Hbc. by etrans. }
  apply (Sorted_unique_strong (fun a b : string * string => String.le a.1 b.1)).
  - intros [k1 v1] [k2 v2] H1 H2 H12 H21. simpl in *.
    assert (k1 = k2) as -> by (by apply (anti_symm String.le)).
    f_equal. rewrite Hperm in H1. rewrite Hp in H2.
    apply elem_of_map_to_list in H1, H2. congruence.
  - apply (Sorted_of_fmap fst).
    replace (l.*1) with (encoded_key <$> l); [done |].
    apply list_fmap_ext. intros i kv Hi. apply Hkey. rewrite <- Hperm.
    by apply list_elem_of_lookup_2 in Hi.
  - by apply (Sorted_of_fmap fst).
  - by rewrite Hperm, Hp.
Qed.

(** For a map whose keys are lower-case letters, digits and [-_.~], the
    canonical query string and the canonical header string that [_sign]
    builds of it are the pairs [key=value], both encoded, of the items of
    the map in the order of their encoded keys, joined by [&]. *)
Theorem canonical_strings_plain_keys (d : gmap string string)
    (l : list (string * string)) :
  (forall k v, d !! k = Some v -> plain k = true) ->
  l ≡ₚ map_to_list d ->
  Sorted String.le (encoded_key <$> l) ->
  param_str d
  = Py.join "&"
      ((fun kv => encoded_key kv +:+ "=" +:+ Urllib.quote kv.2 "-_.~") <$> l)
  /\ header_str d
     = Py.join "&"
         ((fun kv => encoded_key kv +:+ "=" +:+ Urllib.quote kv.2 "-_.~") <$> l).
Proof.
  intros Hplain Hperm Hsorted.
  by rewrite (sorted_items_plain d l Hplain Hperm Hsorted).
Qed.

(** The theorem at the parameters of an append at 7. *)
Lemma canonical_strings_plain_keys_witness :
  (forall k v, append_params 7 !! k = Some v -> plain k = true)
  /\ param_str (append_params 7) = "append=&position=7".
Proof.
  assert (forall k v, append_params 7 !! k = Some v -> plain k = true) as H.
  { intros k v. unfold append_params.
    rewrite lookup_insert_Some, lookup_singleton_Some.
    intros [[<- _] | [_ [<- _]]]; reflexivity. }
  split; [exact H |].
  assert ([("append", EmptyString); ("position", "7")] ≡ₚ map_to_list (append_params 7))
    as Hperm.
  { destruct (sorted_items_by_key (append_params 7)) as [_ <-].
    unfold append_params. by rewrite (append_params_items (Py.str 7)). }
  destruct (canonical_strings_plain_keys (append_params 7)
              [("append", EmptyString); ("position", "7")] H Hperm) as [Hq _].
  - repeat constructor.
  - rewrite Hq. reflexivity.
Defined.

End plain_keys.
